(** * The declaration extractor (src/bin/decls.cc), embedded and verified

    The tool is a clang [RecursiveASTVisitor] that collects one [DeclInfo]
    per visited declaration and a [main] that prints the collected records.
    The front-end (parser, source manager, type printer, tool driver) is an
    external library: its objects appear here as plain data carrying exactly
    the observations the tool makes on them. *)

From Stdlib Require Import List String Ascii Bool Arith ZArith Lia DecimalString.
Import ListNotations.
Open Scope string_scope.

(** ** Front-end objects, as the tool observes them *)

(** [clang::SourceLocation]: an opaque encoded position; the raw encoding 0
    is the invalid location. *)
Module SourceLocation.
Record t := { ID : nat }.
Definition isValid (L : t) : bool := negb (ID L =? 0)%nat.
End SourceLocation.

(** [clang::SourceManager]: the location service.  The tool asks it three
    things about a location and nothing else. *)
Module SourceManager.
Record t := {
    isInMainFile : SourceLocation.t -> bool;
    getSpellingLineNumber : SourceLocation.t -> nat;
    getSpellingColumnNumber : SourceLocation.t -> nat
  }.
End SourceManager.

(** [clang::QualType]: a type handle; the tool only pretty-prints it. *)
Module QualType.
Record t := { getAsString : string }.
End QualType.

(** [clang::Expr]: an enumerator initialiser is only tested for presence. *)
Definition Expr := string.

(** [clang::TagTypeKind]. *)
Inductive TagTypeKind := TTK_Struct | TTK_Interface | TTK_Union | TTK_Class | TTK_Enum.

(** The dynamic kinds ([clang::Decl::Kind]) grouped by the class the tool
    casts to.  Each group lists the class itself and the classes derived from
    it; [dyn_cast<C>] succeeds on every kind of group [C]. *)
Inductive FunctionKind :=
  KFunction | KCXXDeductionGuide | KCXXMethod | KCXXConstructor
| KCXXConversion | KCXXDestructor.

Inductive VarKind :=
  KVar | KDecomposition | KImplicitParam | KOMPCapturedExpr | KParmVar
| KVarTemplateSpecialization | KVarTemplatePartialSpecialization.

Inductive RecordKind :=
  KRecord | KCXXRecord | KClassTemplateSpecialization
| KClassTemplatePartialSpecialization.

Inductive FieldKind := KField | KObjCAtDefsField | KObjCIvar.

(** Named declarations outside the seven classes the visitor hooks. *)
Inductive OtherNamedKind :=
  KNamespace | KNamespaceAlias | KLabel | KTypeAlias | KUsing
| KUsingDirective | KUsingShadow | KIndirectField | KFunctionTemplate
| KClassTemplate | KVarTemplate | KTypeAliasTemplate | KTemplateTypeParm
| KNonTypeTemplateParm | KTemplateTemplateParm | KConcept
| KUnresolvedUsingValue | KObjCInterface | KObjCMethod | KObjCProperty.

(** Declarations that are not [NamedDecl]s. *)
Inductive UnnamedKind :=
  KTranslationUnit | KAccessSpec | KBlock | KCaptured | KEmpty | KExport
| KExternCContext | KFileScopeAsm | KFriend | KFriendTemplate | KImport
| KLinkageSpec | KStaticAssert | KPragmaComment | KPragmaDetectMismatch.

Module ParmVarDecl.
Record t := { getType : QualType.t; getNameAsString : string }.
End ParmVarDecl.

Module FunctionDecl.
Record t := {
    getKind : FunctionKind;
    getReturnType : QualType.t;
    getNameAsString : string;
    parameters : list ParmVarDecl.t;
    isThisDeclarationADefinition : bool
  }.
Definition getNumParams (FD : t) : nat := List.length (parameters FD).
End FunctionDecl.

Module VarDecl.
Record t := {
    getKind : VarKind;
    getType : QualType.t;
    getNameAsString : string
  }.
End VarDecl.

Module TypedefDecl.
Record t := { getUnderlyingType : QualType.t; getNameAsString : string }.
End TypedefDecl.

Module RecordDecl.
Record t := {
    getKind : RecordKind;
    getTagKind : TagTypeKind;
    getNameAsString : string;
    isThisDeclarationADefinition : bool
  }.
Definition isStruct (RD : t) : bool :=
    match getTagKind RD with TTK_Struct => true | _ => false end.
Definition isUnion (RD : t) : bool :=
    match getTagKind RD with TTK_Union => true | _ => false end.
End RecordDecl.

Module EnumDecl.
Record t := { getNameAsString : string; isThisDeclarationADefinition : bool }.
End EnumDecl.

Module FieldDecl.
Record t := {
    getKind : FieldKind;
    getType : QualType.t;
    getNameAsString : string
  }.
End FieldDecl.

Module EnumConstantDecl.
Record t := { getNameAsString : string; getInitExpr : option Expr }.
End EnumConstantDecl.

(** The most-derived part of a declaration object. *)
Inductive DeclClass :=
| IsFunction (FD : FunctionDecl.t)
| IsVar (VD : VarDecl.t)
| IsTypedef (TD : TypedefDecl.t)
| IsRecord (RD : RecordDecl.t)
| IsEnum (ED : EnumDecl.t)
| IsField (FD : FieldDecl.t)
| IsEnumConstant (ECD : EnumConstantDecl.t)
| IsOtherNamed (K : OtherNamedKind) (Name : string)
| IsUnnamed (K : UnnamedKind).

(** [clang::Decl]: the base object (its location) and its dynamic class. *)
Record Decl := {
  getLocation : SourceLocation.t;
  getClass : DeclClass
}.

(** The tree the recursive visitor walks: a declaration and, in order, the
    declarations its traversal descends into (members of a record,
    enumerators, parameters reached through the function's type, local
    declarations of a body, ...). *)
#[warnings="-register-all"]
Inductive DeclNode := Node (D : Decl) (children : list DeclNode).

(** [dyn_cast<C>(D)]: the view of [D] as a [C], when [D] is one. *)
Definition dyn_cast_FunctionDecl (D : Decl) : option FunctionDecl.t :=
  match getClass D with IsFunction FD => Some FD | _ => None end.
Definition dyn_cast_VarDecl (D : Decl) : option VarDecl.t :=
  match getClass D with IsVar VD => Some VD | _ => None end.
Definition dyn_cast_TypedefDecl (D : Decl) : option TypedefDecl.t :=
  match getClass D with IsTypedef TD => Some TD | _ => None end.
Definition dyn_cast_RecordDecl (D : Decl) : option RecordDecl.t :=
  match getClass D with IsRecord RD => Some RD | _ => None end.
Definition dyn_cast_EnumDecl (D : Decl) : option EnumDecl.t :=
  match getClass D with IsEnum ED => Some ED | _ => None end.
Definition dyn_cast_FieldDecl (D : Decl) : option FieldDecl.t :=
  match getClass D with IsField FD => Some FD | _ => None end.
Definition dyn_cast_EnumConstantDecl (D : Decl) : option EnumConstantDecl.t :=
  match getClass D with IsEnumConstant ECD => Some ECD | _ => None end.

(** [cast<NamedDecl>(D)->getNameAsString()]: the cast asserts on an object
    that is not a [NamedDecl]; [None] is that assertion failure. *)
Definition cast_NamedDecl_getNameAsString (D : Decl) : option string :=
  match getClass D with
  | IsFunction FD => Some (FunctionDecl.getNameAsString FD)
  | IsVar VD => Some (VarDecl.getNameAsString VD)
  | IsTypedef TD => Some (TypedefDecl.getNameAsString TD)
  | IsRecord RD => Some (RecordDecl.getNameAsString RD)
  | IsEnum ED => Some (EnumDecl.getNameAsString ED)
  | IsField FD => Some (FieldDecl.getNameAsString FD)
  | IsEnumConstant ECD => Some (EnumConstantDecl.getNameAsString ECD)
  | IsOtherNamed _ Name => Some Name
  | IsUnnamed _ => None
  end.

Definition FunctionKindName (K : FunctionKind) : string :=
  match K with
  | KFunction => "Function" | KCXXDeductionGuide => "CXXDeductionGuide"
  | KCXXMethod => "CXXMethod" | KCXXConstructor => "CXXConstructor"
  | KCXXConversion => "CXXConversion" | KCXXDestructor => "CXXDestructor"
  end.

Definition VarKindName (K : VarKind) : string :=
  match K with
  | KVar => "Var" | KDecomposition => "Decomposition"
  | KImplicitParam => "ImplicitParam" | KOMPCapturedExpr => "OMPCapturedExpr"
  | KParmVar => "ParmVar"
  | KVarTemplateSpecialization => "VarTemplateSpecialization"
  | KVarTemplatePartialSpecialization => "VarTemplatePartialSpecialization"
  end.

Definition RecordKindName (K : RecordKind) : string :=
  match K with
  | KRecord => "Record" | KCXXRecord => "CXXRecord"
  | KClassTemplateSpecialization => "ClassTemplateSpecialization"
  | KClassTemplatePartialSpecialization => "ClassTemplatePartialSpecialization"
  end.

Definition FieldKindName (K : FieldKind) : string :=
  match K with
  | KField => "Field" | KObjCAtDefsField => "ObjCAtDefsField"
  | KObjCIvar => "ObjCIvar"
  end.

Definition OtherNamedKindName (K : OtherNamedKind) : string :=
  match K with
  | KNamespace => "Namespace" | KNamespaceAlias => "NamespaceAlias"
  | KLabel => "Label" | KTypeAlias => "TypeAlias" | KUsing => "Using"
  | KUsingDirective => "UsingDirective" | KUsingShadow => "UsingShadow"
  | KIndirectField => "IndirectField" | KFunctionTemplate => "FunctionTemplate"
  | KClassTemplate => "ClassTemplate" | KVarTemplate => "VarTemplate"
  | KTypeAliasTemplate => "TypeAliasTemplate"
  | KTemplateTypeParm => "TemplateTypeParm"
  | KNonTypeTemplateParm => "NonTypeTemplateParm"
  | KTemplateTemplateParm => "TemplateTemplateParm" | KConcept => "Concept"
  | KUnresolvedUsingValue => "UnresolvedUsingValue"
  | KObjCInterface => "ObjCInterface" | KObjCMethod => "ObjCMethod"
  | KObjCProperty => "ObjCProperty"
  end.

Definition UnnamedKindName (K : UnnamedKind) : string :=
  match K with
  | KTranslationUnit => "TranslationUnit" | KAccessSpec => "AccessSpec"
  | KBlock => "Block" | KCaptured => "Captured" | KEmpty => "Empty"
  | KExport => "Export" | KExternCContext => "ExternCContext"
  | KFileScopeAsm => "FileScopeAsm" | KFriend => "Friend"
  | KFriendTemplate => "FriendTemplate" | KImport => "Import"
  | KLinkageSpec => "LinkageSpec" | KStaticAssert => "StaticAssert"
  | KPragmaComment => "PragmaComment"
  | KPragmaDetectMismatch => "PragmaDetectMismatch"
  end.

(** [Decl::getDeclKindName()]. *)
Definition getDeclKindName (D : Decl) : string :=
  match getClass D with
  | IsFunction FD => FunctionKindName (FunctionDecl.getKind FD)
  | IsVar VD => VarKindName (VarDecl.getKind VD)
  | IsTypedef _ => "Typedef"
  | IsRecord RD => RecordKindName (RecordDecl.getKind RD)
  | IsEnum _ => "Enum"
  | IsField FD => FieldKindName (FieldDecl.getKind FD)
  | IsEnumConstant _ => "EnumConstant"
  | IsOtherNamed K _ => OtherNamedKindName K
  | IsUnnamed K => UnnamedKindName K
  end.

(** ** The tool's own data: one record per visited declaration *)

Record DeclInfo := {
  kind : string;
  declaration : string;
  is_definition : bool;
  line : nat;
  column : nat
}.

(** Failure of a library assertion aborts the process: computations that can
    reach one live in the option monad. *)
Definition bind {A B : Type} (m : option A) (k : A -> option B) : option B :=
  match m with Some a => k a | None => None end.

Notation "x <- m ;; k" := (bind m (fun x => k))
  (at level 61, m at next level, right associativity).
Notation "' p <- m ;; k" := (bind m (fun x => match x with p => k end))
  (at level 61, p pattern, m at next level, right associativity).

(** ** DeclVisitor *)

Section DeclVisitor.

Variable SM : SourceManager.t.

Definition shouldVisitDecl (D : Decl) : bool :=
  if negb (SourceLocation.isValid (getLocation D)) then false
  else if negb (SourceManager.isInMainFile SM (getLocation D)) then false
  else true.

(** The parameter loop of [getFunctionSignature]: [i] is the loop index,
    [Params] the parameters from index [i] on. *)
Fixpoint appendParams (Params : list ParmVarDecl.t) (i : nat) (result : string)
  : string :=
  match Params with
  | [] => result
  | Param :: rest =>
      let result := if (0 <? i)%nat then result ++ ", " else result in
      let result := result ++ QualType.getAsString (ParmVarDecl.getType Param) in
      let result :=
        if negb (ParmVarDecl.getNameAsString Param =? "")
        then result ++ (" " ++ ParmVarDecl.getNameAsString Param)
        else result in
      appendParams rest (S i) result
  end.

Definition getFunctionSignature (FD : FunctionDecl.t) : string :=
  let RT := FunctionDecl.getReturnType FD in
  let result :=
    QualType.getAsString RT ++ " " ++ FunctionDecl.getNameAsString FD ++ "(" in
  let NumParams := FunctionDecl.getNumParams FD in
  let result :=
    if (NumParams =? 0)%nat then result ++ "void"
    else appendParams (FunctionDecl.parameters FD) 0 result in
  result ++ ")".

Definition getDeclarationString (D : Decl) : option string :=
  match dyn_cast_FunctionDecl D with
  | Some FD => Some (getFunctionSignature FD ++ ";")
  | None =>
  match dyn_cast_VarDecl D with
  | Some VD =>
      Some (QualType.getAsString (VarDecl.getType VD) ++ " "
            ++ VarDecl.getNameAsString VD ++ ";")
  | None =>
  match dyn_cast_TypedefDecl D with
  | Some TD =>
      let UnderlyingType := TypedefDecl.getUnderlyingType TD in
      Some ("typedef " ++ QualType.getAsString UnderlyingType ++ " "
            ++ TypedefDecl.getNameAsString TD ++ ";")
  | None =>
  match dyn_cast_RecordDecl D with
  | Some RD =>
      let name := RecordDecl.getNameAsString RD in
      let name := if name =? "" then "<anonymous>" else name in
      Some ((if RecordDecl.isStruct RD then "struct "
             else if RecordDecl.isUnion RD then "union " else "class ")
            ++ name ++ ";")
  | None =>
  match dyn_cast_EnumDecl D with
  | Some ED =>
      let name := EnumDecl.getNameAsString ED in
      let name := if name =? "" then "<anonymous>" else name in
      Some ("enum " ++ name ++ ";")
  | None =>
  match dyn_cast_FieldDecl D with
  | Some FD =>
      Some (QualType.getAsString (FieldDecl.getType FD) ++ " "
            ++ FieldDecl.getNameAsString FD ++ ";")
  | None =>
  match dyn_cast_EnumConstantDecl D with
  | Some ECD =>
      let result := EnumConstantDecl.getNameAsString ECD in
      Some (match EnumConstantDecl.getInitExpr ECD with
            | Some _ => result ++ " = <value>"
            | None => result
            end)
  | None =>
      name <- cast_NamedDecl_getNameAsString D ;;
      Some (getDeclKindName D ++ ": " ++ name)
  end end end end end end end.

Definition isDefinition (D : Decl) : bool :=
  match dyn_cast_FunctionDecl D with
  | Some FD => FunctionDecl.isThisDeclarationADefinition FD
  | None =>
  match dyn_cast_RecordDecl D with
  | Some RD => RecordDecl.isThisDeclarationADefinition RD
  | None =>
  match dyn_cast_EnumDecl D with
  | Some ED => EnumDecl.isThisDeclarationADefinition ED
  | None => false
  end end end.

(** [Decls] is the vector the visitor holds by reference; [push_back]
    appends at the end. *)
Definition addDeclaration (D : Decl) (Decls : list DeclInfo)
  : option (list DeclInfo) :=
  if negb (shouldVisitDecl D) then Some Decls
  else
    let info_kind := getDeclKindName D in
    info_declaration <- getDeclarationString D ;;
    let info_is_definition := isDefinition D in
    let Loc := getLocation D in
    Some (Decls ++ [ {| kind := info_kind;
                        declaration := info_declaration;
                        is_definition := info_is_definition;
                        line := SourceManager.getSpellingLineNumber SM Loc;
                        column := SourceManager.getSpellingColumnNumber SM Loc |} ])%list.

(** The seven hooks.  Each returns [true]: the walk goes on. *)
Definition VisitFunctionDecl (FD : Decl) (Decls : list DeclInfo)
  : option (bool * list DeclInfo) :=
  Decls <- addDeclaration FD Decls ;; Some (true, Decls).

Definition VisitVarDecl (VD : Decl) (Decls : list DeclInfo)
  : option (bool * list DeclInfo) :=
  Decls <- addDeclaration VD Decls ;; Some (true, Decls).

Definition VisitTypedefDecl (TD : Decl) (Decls : list DeclInfo)
  : option (bool * list DeclInfo) :=
  Decls <- addDeclaration TD Decls ;; Some (true, Decls).

Definition VisitRecordDecl (RD : Decl) (Decls : list DeclInfo)
  : option (bool * list DeclInfo) :=
  Decls <- addDeclaration RD Decls ;; Some (true, Decls).

Definition VisitEnumDecl (ED : Decl) (Decls : list DeclInfo)
  : option (bool * list DeclInfo) :=
  Decls <- addDeclaration ED Decls ;; Some (true, Decls).

Definition VisitFieldDecl (FD : Decl) (Decls : list DeclInfo)
  : option (bool * list DeclInfo) :=
  Decls <- addDeclaration FD Decls ;; Some (true, Decls).

Definition VisitEnumConstantDecl (ECD : Decl) (Decls : list DeclInfo)
  : option (bool * list DeclInfo) :=
  Decls <- addDeclaration ECD Decls ;; Some (true, Decls).

(** [RecursiveASTVisitor::WalkUpFrom...]: the base visitor calls the hook of
    every class on the path from [Decl] down to the dynamic class of the
    node.  The seven hooked classes do not derive from one another, so at
    most one of the hooks above is on that path; every hook the visitor does
    not define is the base one, which does nothing and returns [true]. *)
Definition WalkUpFrom (D : Decl) (Decls : list DeclInfo)
  : option (bool * list DeclInfo) :=
  match getClass D with
  | IsFunction _ => VisitFunctionDecl D Decls
  | IsVar _ => VisitVarDecl D Decls
  | IsTypedef _ => VisitTypedefDecl D Decls
  | IsRecord _ => VisitRecordDecl D Decls
  | IsEnum _ => VisitEnumDecl D Decls
  | IsField _ => VisitFieldDecl D Decls
  | IsEnumConstant _ => VisitEnumConstantDecl D Decls
  | IsOtherNamed _ _ => Some (true, Decls)
  | IsUnnamed _ => Some (true, Decls)
  end.

(** [RecursiveASTVisitor::TraverseDecl]: pre-order, depth-first; a hook
    returning [false] stops the whole walk. *)
Fixpoint TraverseDecl (N : DeclNode) (Decls : list DeclInfo)
  : option (bool * list DeclInfo) :=
  match N with
  | Node D children =>
      '(go_on, Decls) <- WalkUpFrom D Decls ;;
      if go_on then
        (fix TraverseChildren (cs : list DeclNode) (Decls : list DeclInfo)
           : option (bool * list DeclInfo) :=
           match cs with
           | [] => Some (true, Decls)
           | c :: cs' =>
               '(go_on, Decls) <- TraverseDecl c Decls ;;
               if go_on then TraverseChildren cs' Decls
               else Some (false, Decls)
           end) children Decls
      else Some (false, Decls)
  end.

End DeclVisitor.

(** ** The consumer and the driver *)

(** [clang::ASTContext] of one translation unit. *)
Record ASTContext := {
  getSourceManager : SourceManager.t;
  getTranslationUnitDecl : DeclNode
}.

Definition HandleTranslationUnit (Context : ASTContext) (Decls : list DeclInfo)
  : option (list DeclInfo) :=
  '(_, Decls) <-
     TraverseDecl (getSourceManager Context) (getTranslationUnitDecl Context)
       Decls ;;
  Some Decls.

(** What a successful [CommonOptionsParser::create] leaves behind: the two
    [cl::opt] flags and the source path list. *)
Record CommonOptionsParser := {
  ShowMacros : bool;
  DefinitionsOnly : bool;
  getSourcePathList : list string
}.

(** The behaviour of the front-end during one [ClangTool::run]: the contexts
    of the translation units for which it built a tree and called the
    consumer, what it wrote on the error stream, and the integer it returned
    (the library's contract: 0 on success, 1 if any error occurred while
    processing, 2 if a file was skipped). *)
Record FrontEndRun := {
  translationUnits : list ASTContext;
  diagnostics : string;
  Result : Z
}.

Fixpoint runConsumers (TUs : list ASTContext) (Decls : list DeclInfo)
  : option (list DeclInfo) :=
  match TUs with
  | [] => Some Decls
  | Context :: rest =>
      Decls <- HandleTranslationUnit Context Decls ;;
      runConsumers rest Decls
  end.

(** [Tool.run(&Factory)]: every action the factory creates shares [Decls]. *)
Definition Tool_run (FE : FrontEndRun) (Decls : list DeclInfo)
  : option (Z * list DeclInfo) :=
  Decls <- runConsumers (translationUnits FE) Decls ;;
  Some (Result FE, Decls).

Definition nl : string := String (ascii_of_nat 10) EmptyString.

(** [operator<<] on an unsigned integer. *)
Definition to_string (n : nat) : string := NilEmpty.string_of_uint (Nat.to_uint n).

(** The text one record contributes to the report. *)
Definition reportLine (decl : DeclInfo) : string :=
  declaration decl ++ "  // "
  ++ (if is_definition decl then "definition" else "declaration")
  ++ " at " ++ to_string (line decl) ++ ":" ++ to_string (column decl) ++ nl.

(** The printing loop of [main]; [cout] is what standard output holds. *)
Fixpoint printDecls (DefinitionsOnly : bool) (Decls : list DeclInfo)
  (cout : string) : string :=
  match Decls with
  | [] => cout
  | decl :: rest =>
      if DefinitionsOnly && negb (is_definition decl)
      then printDecls DefinitionsOnly rest cout
      else printDecls DefinitionsOnly rest (cout ++ reportLine decl)
  end.

Definition reportHeader (SourcePathList : list string) : string :=
  if (0 <? List.length SourcePathList)%nat
  then "=== Declarations from " ++ nth 0 SourcePathList "" ++ " ===" ++ nl ++ nl
  else "".

Definition totalLine (Decls : list DeclInfo) : string :=
  nl ++ "=== Total: " ++ to_string (List.length Decls) ++ " items ===" ++ nl.

(** What the process leaves behind. *)
Record Process := {
  stdout : string;
  stderr : string;
  exit_status : Z
}.

(** The "Print results" part of [main]: what it writes on standard output
    once the tool has run. *)
Definition printResults (OptionsParser : CommonOptionsParser)
  (Decls : list DeclInfo) : string :=
  let cout := reportHeader (getSourcePathList OptionsParser) in
  let cout := printDecls (DefinitionsOnly OptionsParser) Decls cout in
  cout ++ totalLine Decls.

(** [main]: [ExpectedParser] is the outcome of [CommonOptionsParser::create]
    (an error text or the parsed command line). *)
Definition main (ExpectedParser : string + CommonOptionsParser)
  (FE : FrontEndRun) : option Process :=
  match ExpectedParser with
  | inl Err => Some {| stdout := ""; stderr := Err; exit_status := 1 |}
  | inr OptionsParser =>
      '(Result, Decls) <- Tool_run FE [] ;;
      Some {| stdout := printResults OptionsParser Decls;
              stderr := diagnostics FE;
              exit_status := Result |}
  end.

(** ** Views used by the statements *)

(** The nodes of a tree in depth-first pre-order. *)
Fixpoint preorder (N : DeclNode) : list Decl :=
  match N with
  | Node D children => D :: flat_map preorder children
  end.

(** The node belongs to one of the seven classes the visitor hooks. *)
Definition hasVisitHook (D : Decl) : bool :=
  match getClass D with
  | IsOtherNamed _ _ | IsUnnamed _ => false
  | _ => true
  end.

(** A named node outside the seven hooked classes. *)
Definition isOtherNamed (D : Decl) : bool :=
  match getClass D with IsOtherNamed _ _ => true | _ => false end.

(** The node is one for which the walk appends a record. *)
Definition recorded (SM : SourceManager.t) (D : Decl) : bool :=
  shouldVisitDecl SM D && hasVisitHook D.

(** The record [addDeclaration] builds for a node (its signature falls back
    to the empty text only where the renderer's cast would have failed). *)
Definition recordOf (SM : SourceManager.t) (D : Decl) : DeclInfo :=
  {| kind := getDeclKindName D;
     declaration := match getDeclarationString D with Some s => s | None => "" end;
     is_definition := isDefinition D;
     line := SourceManager.getSpellingLineNumber SM (getLocation D);
     column := SourceManager.getSpellingColumnNumber SM (getLocation D) |}.

(** The records of the hooked, eligible nodes of a forest, in pre-order. *)
Definition recordsOf (SM : SourceManager.t) (Ns : list DeclNode) : list DeclInfo :=
  map (recordOf SM) (filter (recorded SM) (flat_map preorder Ns)).

(** The records one traversal collects, starting from an empty vector. *)
Definition collect (SM : SourceManager.t) (N : DeclNode) : option (list DeclInfo) :=
  '(_, Decls) <- TraverseDecl SM N [] ;; Some Decls.

(** The walk over the children of a node, as [TraverseDecl] performs it. *)
Definition TraverseChildren (SM : SourceManager.t)
  : list DeclNode -> list DeclInfo -> option (bool * list DeclInfo) :=
  fix TraverseChildren (cs : list DeclNode) (Decls : list DeclInfo) :=
    match cs with
    | [] => Some (true, Decls)
    | c :: cs' =>
        '(go_on, Decls) <- TraverseDecl SM c Decls ;;
        if go_on then TraverseChildren cs' Decls
        else Some (false, Decls)
    end.

(** Texts written one after the other. *)
Fixpoint catLines (lines : list string) : string :=
  match lines with
  | [] => ""
  | l :: rest => l ++ catLines rest
  end.

(** Signature and definition flag of a record. *)
Definition signatureAndStatus (r : DeclInfo) : string * bool :=
  (declaration r, is_definition r).

(** ** A concrete source manager and concrete trees *)

(** Line and column of byte offset [off] in [text], counting from
    [(line, col)] at offset 0. *)
Fixpoint lineColumn (text : string) (off line col : nat) : nat * nat :=
  match off, text with
  | S off', String c text' =>
      if Ascii.eqb c (ascii_of_nat 10) then lineColumn text' off' (S line) 1
      else lineColumn text' off' line (S col)
  | _, _ => (line, col)
  end.

(** A source manager whose main file is the buffer [text], loaded at
    encoding 1: location [1 + off] is byte [off] of the main file, and every
    larger encoding lies in some other buffer (an included file). *)
Definition mainBuffer (text : string) : SourceManager.t :=
  {| SourceManager.isInMainFile L :=
       (1 <=? SourceLocation.ID L)%nat
       && (SourceLocation.ID L <=? String.length text)%nat;
     SourceManager.getSpellingLineNumber L :=
       fst (lineColumn text (SourceLocation.ID L - 1) 1 1);
     SourceManager.getSpellingColumnNumber L :=
       snd (lineColumn text (SourceLocation.ID L - 1) 1 1) |}.

Definition at_ (ID : nat) : SourceLocation.t := {| SourceLocation.ID := ID |}.

Definition ty (s : string) : QualType.t := {| QualType.getAsString := s |}.

Definition TranslationUnit (children : list DeclNode) : DeclNode :=
  Node {| getLocation := at_ 0; getClass := IsUnnamed KTranslationUnit |} children.

(** The five-line scenario of the specification. *)
Definition scenarioText : string :=
  "struct connection;" ++ nl ++
  "typedef struct connection CONNECTION;" ++ nl ++
  "struct connection { int fd; CONNECTION *next; };" ++ nl ++
  "int f(void);" ++ nl ++
  "int f(void) { return 0; }" ++ nl.

Definition connectionDecl (ID : nat) (isDef : bool) : Decl :=
  {| getLocation := at_ ID;
     getClass := IsRecord {| RecordDecl.getKind := KRecord;
                             RecordDecl.getTagKind := TTK_Struct;
                             RecordDecl.getNameAsString := "connection";
                             RecordDecl.isThisDeclarationADefinition := isDef |} |}.

Definition fieldDecl (ID : nat) (T name : string) : Decl :=
  {| getLocation := at_ ID;
     getClass := IsField {| FieldDecl.getKind := KField;
                            FieldDecl.getType := ty T;
                            FieldDecl.getNameAsString := name |} |}.

Definition fDecl (ID : nat) (isDef : bool) : Decl :=
  {| getLocation := at_ ID;
     getClass := IsFunction {| FunctionDecl.getKind := KFunction;
                               FunctionDecl.getReturnType := ty "int";
                               FunctionDecl.getNameAsString := "f";
                               FunctionDecl.parameters := [];
                               FunctionDecl.isThisDeclarationADefinition := isDef |} |}.

Definition CONNECTIONDecl : Decl :=
  {| getLocation := at_ 46;
     getClass := IsTypedef {| TypedefDecl.getUnderlyingType := ty "struct connection";
                              TypedefDecl.getNameAsString := "CONNECTION" |} |}.

(** The tree the front-end builds for [scenarioText]; every location is the
    encoding of the declared identifier's first byte. *)
Definition scenarioTree : DeclNode :=
  TranslationUnit
    [ Node (connectionDecl 8 false) [];
      Node CONNECTIONDecl [];
      Node (connectionDecl 65 true)
        [ Node (fieldDecl 82 "int" "fd") [];
          Node (fieldDecl 98 "CONNECTION *" "next") [] ];
      Node (fDecl 111 false) [];
      Node (fDecl 124 true) [] ].

Definition scenarioContext : ASTContext :=
  {| getSourceManager := mainBuffer scenarioText;
     getTranslationUnitDecl := scenarioTree |}.

(** [isa<NamedDecl>(D)]. *)
Definition isNamedDecl (D : Decl) : bool :=
  match cast_NamedDecl_getNameAsString D with Some _ => true | None => false end.

(** The six records the specification expects for the scenario. *)
Definition scenarioExpectedSix : list (string * bool) :=
  [ ("struct connection;", false);
    ("typedef struct connection CONNECTION;", false);
    ("struct connection;", true);
    ("int fd;", false);
    ("int f(void);", false);
    ("int f(void);", true) ].

Definition varDecl (ID : nat) (T name : string) : Decl :=
  {| getLocation := at_ ID;
     getClass := IsVar {| VarDecl.getKind := KVar;
                          VarDecl.getType := ty T;
                          VarDecl.getNameAsString := name |} |}.

(** A static assertion followed by a variable. *)
Definition assertText : string :=
  "_Static_assert(sizeof(int) >= 2);" ++ nl ++
  "int x;" ++ nl.

Definition staticAssertDecl : Decl :=
  {| getLocation := at_ 1; getClass := IsUnnamed KStaticAssert |}.

Definition assertTree : DeclNode :=
  TranslationUnit [ Node staticAssertDecl []; Node (varDecl 39 "int" "x") [] ].

(** A main file that includes a header: the header's declarations lie in
    another buffer (encodings beyond the main buffer), and one declaration
    has no location at all. *)
Definition includeText : string :=
  "#include <conn.h>" ++ nl ++
  "int x;" ++ nl.

Definition includeTree : DeclNode :=
  TranslationUnit
    [ Node (varDecl 0 "__int128" "synthesized") [];
      Node (connectionDecl 1008 true)
        [ Node (fieldDecl 1025 "int" "fd") [] ];
      Node (fDecl 1040 false) [];
      Node (varDecl 23 "int" "x") [] ].

(** A C++ namespace around a variable. *)
Definition namespaceText : string := "namespace ns { int x; }" ++ nl.

Definition nsDecl : Decl :=
  {| getLocation := at_ 11; getClass := IsOtherNamed KNamespace "ns" |}.

Definition namespaceTree : DeclNode :=
  TranslationUnit [ Node nsDecl [ Node (varDecl 20 "int" "x") [] ] ].

(** A source with a recoverable error (an undeclared identifier): the
    front-end still builds the tree and calls the consumer, reports the
    error, and the tool run returns 1. *)
Definition undeclaredText : string := "int f(void) { return y; }" ++ nl.

Definition undeclaredRun : FrontEndRun :=
  {| translationUnits :=
       [ {| getSourceManager := mainBuffer undeclaredText;
            getTranslationUnitDecl := TranslationUnit [ Node (fDecl 5 true) [] ] |} ];
     diagnostics := "error: use of undeclared identifier 'y'" ++ nl;
     Result := 1 |}.

(** A run on a missing file: no tree is built at all. *)
Definition missingFileRun : FrontEndRun :=
  {| translationUnits := [];
     diagnostics := "error: no such file or directory: 'missing.c'" ++ nl;
     Result := 1 |}.

Definition commandLine (m d : bool) (paths : list string) : CommonOptionsParser :=
  {| ShowMacros := m; DefinitionsOnly := d; getSourcePathList := paths |}.

(** A prototype [g] with a named [int] parameter and an unnamed pointer
    parameter. *)
Definition gFunction : FunctionDecl.t :=
  {| FunctionDecl.getKind := KFunction;
     FunctionDecl.getReturnType := ty "int";
     FunctionDecl.getNameAsString := "g";
     FunctionDecl.parameters :=
       [ {| ParmVarDecl.getType := ty "int"; ParmVarDecl.getNameAsString := "a" |};
         {| ParmVarDecl.getType := ty "char *"; ParmVarDecl.getNameAsString := "" |} ];
     FunctionDecl.isThisDeclarationADefinition := false |}.

(** An anonymous bit-field: [struct flags { int : 3; };]. *)
Definition bitFieldDecl : Decl := fieldDecl 16 "int" "".

(** ** Further views *)

(** The text of one parameter inside a signature. *)
Definition renderParam (Param : ParmVarDecl.t) : string :=
  if ParmVarDecl.getNameAsString Param =? ""
  then QualType.getAsString (ParmVarDecl.getType Param)
  else QualType.getAsString (ParmVarDecl.getType Param) ++ " "
       ++ ParmVarDecl.getNameAsString Param.

(** The node is a function, a record or an enum (or of a derived class). *)
Definition isFunctionRecordOrEnum (D : Decl) : bool :=
  match getClass D with
  | IsFunction _ | IsRecord _ | IsEnum _ => true
  | _ => false
  end.

(** The keyword the record renderer picks for a tag kind. *)
Definition recordKeyword (T : TagTypeKind) : string :=
  match T with
  | TTK_Struct => "struct "
  | TTK_Union => "union "
  | _ => "class "
  end.

(** Number of line ends in a text. *)
Fixpoint countNewlines (s : string) : nat :=
  match s with
  | EmptyString => 0
  | String c s' =>
      (if Ascii.eqb c (ascii_of_nat 10) then 1 else 0) + countNewlines s'
  end.

(** The records a translation unit contributes to a tool run. *)
Definition recordsOfUnit (Context : ASTContext) : list DeclInfo :=
  recordsOf (getSourceManager Context) [getTranslationUnitDecl Context].

(** A two-parameter prototype and its parameters as nodes of the tree:
    [int add(int a, int b);]. *)
Definition addText : string := "int add(int a, int b);" ++ nl.

Definition parmDecl (ID : nat) (T name : string) : Decl :=
  {| getLocation := at_ ID;
     getClass := IsVar {| VarDecl.getKind := KParmVar;
                          VarDecl.getType := ty T;
                          VarDecl.getNameAsString := name |} |}.

Definition addFunction : FunctionDecl.t :=
  {| FunctionDecl.getKind := KFunction;
     FunctionDecl.getReturnType := ty "int";
     FunctionDecl.getNameAsString := "add";
     FunctionDecl.parameters :=
       [ {| ParmVarDecl.getType := ty "int"; ParmVarDecl.getNameAsString := "a" |};
         {| ParmVarDecl.getType := ty "int"; ParmVarDecl.getNameAsString := "b" |} ];
     FunctionDecl.isThisDeclarationADefinition := false |}.

Definition addTree : DeclNode :=
  TranslationUnit
    [ Node {| getLocation := at_ 5; getClass := IsFunction addFunction |}
        [ Node (parmDecl 13 "int" "a") []; Node (parmDecl 20 "int" "b") [] ] ].

Definition addContext : ASTContext :=
  {| getSourceManager := mainBuffer addText; getTranslationUnitDecl := addTree |}.

(** An enumeration with an initialised enumerator: [enum color { RED = 1 };]. *)
Definition colorText : string := "enum color { RED = 1 };" ++ nl.

Definition REDDecl : Decl :=
  {| getLocation := at_ 14;
     getClass := IsEnumConstant {| EnumConstantDecl.getNameAsString := "RED";
                                   EnumConstantDecl.getInitExpr := Some "1" |} |}.

(** * The macro observer (src/bin/macro-obs.cc)

    A libclang client: it scans its command line, has the front-end parse
    the file with a preprocessing record, reports each macro definition of
    the main file on the error stream and copies the source to standard
    output. *)

Module MacroObserver.

(** [CXSourceLocation], as [clang_getFileLocation] and
    [clang_Location_isInSystemHeader] decode it; [getFile] is the name of
    the [CXFile], absent for a null file. *)
Record CXSourceLocation := {
  isInSystemHeader : bool;
  getFile : option string;
  getLine : nat;
  getColumn : nat
}.

Inductive CXCursorKind :=
  CXCursor_MacroDefinition | CXCursor_MacroExpansion
| CXCursor_InclusionDirective | CXCursor_OtherKind.

(** [CXCursor]: what the visitor reads off a cursor; [extentTokens] are the
    spellings of the tokens [clang_tokenize] returns for the cursor's
    extent. *)
Record CXCursor := {
  getCursorKind : CXCursorKind;
  getCursorLocation : CXSourceLocation;
  getCursorSpelling : string;
  getCursorDisplayName : string;
  extentTokens : list string;
  isMacroFunctionLike : bool
}.

#[warnings="-register-all"]
Inductive CursorNode := CNode (cursor : CXCursor) (children : list CursorNode).

Inductive CXChildVisitResult :=
  CXChildVisit_Break | CXChildVisit_Continue | CXChildVisit_Recurse.

(** [clang_visitChildren], the library's traversal, for any callback and
    client data: the callback is called on each child in turn; on
    [Recurse] the children of that child are visited next, on [Continue]
    they are skipped, and [Break] ends the whole visit. *)
Section visitChildren.

Variable ClientData : Type.
Variable callback : CXCursor -> CXCursor -> ClientData -> CXChildVisitResult * ClientData.

Fixpoint visitChild (parent : CXCursor) (N : CursorNode) (data : ClientData)
  : bool * ClientData :=
  match N with
  | CNode cursor children =>
      match callback cursor parent data with
      | (CXChildVisit_Break, data) => (true, data)
      | (CXChildVisit_Continue, data) => (false, data)
      | (CXChildVisit_Recurse, data) =>
          (fix visitAll (cs : list CursorNode) (data : ClientData)
             : bool * ClientData :=
             match cs with
             | [] => (false, data)
             | c :: cs' =>
                 let '(broke, data) := visitChild cursor c data in
                 if broke then (true, data) else visitAll cs' data
             end) children data
      end
  end.

Definition visitAll (parent : CXCursor)
  : list CursorNode -> ClientData -> bool * ClientData :=
  fix visitAll (cs : list CursorNode) (data : ClientData) :=
    match cs with
    | [] => (false, data)
    | c :: cs' =>
        let '(broke, data) := visitChild parent c data in
        if broke then (true, data) else visitAll cs' data
    end.

Definition clang_visitChildren (root : CursorNode) (data : ClientData)
  : bool * ClientData :=
  match root with CNode cursor children => visitAll cursor children data end.

End visitChildren.

(** [getLocation]. *)
Definition getLocation (loc : CXSourceLocation) : string :=
  match getFile loc with
  | Some filename =>
      filename ++ ":" ++ to_string (getLine loc) ++ ":" ++ to_string (getColumn loc)
  | None => "<unknown>"
  end.

(** The token loop of [getSourceText]: [i] is the loop index, [tokens] the
    tokens from index [i] on. *)
Fixpoint appendTokens (tokens : list string) (i numTokens : nat)
  (result : string) : string :=
  match tokens with
  | [] => result
  | token :: rest =>
      let result := result ++ token in
      let result := if (i <? numTokens - 1)%nat then result ++ " " else result in
      appendTokens rest (S i) numTokens result
  end.

Definition getSourceText (tokens : list string) : string :=
  appendTokens tokens 0 (List.length tokens) "".

Record MacroInfo := {
  name : string;
  location : string;
  definition : string;
  is_function_like : bool
}.

(** [VisitorData], together with what the error stream holds. *)
Record VisitorData := {
  main_filename : string;
  macros : list MacroInfo;
  verbose : bool;
  cerr : string
}.

Definition write (text : string) (data : VisitorData) : VisitorData :=
  {| main_filename := main_filename data; macros := macros data;
     verbose := verbose data; cerr := cerr data ++ text |}.

Definition push_back (info : MacroInfo) (data : VisitorData) : VisitorData :=
  {| main_filename := main_filename data;
     macros := (macros data ++ [info])%list;
     verbose := verbose data; cerr := cerr data |}.

(** The callback. *)
Definition visitor (cursor parent : CXCursor) (data : VisitorData)
  : CXChildVisitResult * VisitorData :=
  let location := getCursorLocation cursor in
  if isInSystemHeader location then (CXChildVisit_Continue, data)
  else
    match getFile location with
    | None => (CXChildVisit_Continue, data)
    | Some filename =>
        if negb (filename =? main_filename data)
        then (CXChildVisit_Continue, data)
        else
          let data :=
            match getCursorKind cursor with
            | CXCursor_MacroDefinition =>
                let info :=
                  {| name := getCursorSpelling cursor;
                     location := getLocation location;
                     definition := getSourceText (extentTokens cursor);
                     is_function_like := isMacroFunctionLike cursor |} in
                let data := push_back info data in
                let data :=
                  write (MacroObserver.location info ++ ": #define "
                         ++ MacroObserver.name info) data in
                let data :=
                  if is_function_like info
                  then write "(...) [function-like]" data else data in
                let data := write nl data in
                if verbose data
                then write ("  Definition: " ++ definition info ++ nl) data
                else data
            | CXCursor_MacroExpansion =>
                if verbose data
                then write (getLocation location ++ ": Macro expansion: "
                            ++ getCursorSpelling cursor ++ nl) data
                else data
            | CXCursor_InclusionDirective =>
                if verbose data
                then write (getLocation location ++ ": #include "
                            ++ getCursorDisplayName cursor ++ nl) data
                else data
            | CXCursor_OtherKind => data
            end in
          (CXChildVisit_Recurse, data)
    end.

Definition printUsage (prog : string) : string :=
  "Usage: " ++ prog ++ " <file> [options] [-- clang-args...]" ++ nl
  ++ "Options:" ++ nl
  ++ "  -v, --verbose  Show macro expansions and includes" ++ nl
  ++ "  -h, --help     Show this help" ++ nl
  ++ nl ++ "Reports preprocessor constructs to stderr." ++ nl
  ++ "Outputs unchanged source to stdout." ++ nl
  ++ nl ++ "Examples:" ++ nl
  ++ "  " ++ prog ++ " source.c 2>macros.log > output.c" ++ nl
  ++ "  " ++ prog ++ " source.c -v -- -I./include" ++ nl.

(** The variables of the argument loop of [main]. *)
Record Arguments := {
  filename : option string;
  arg_verbose : bool;
  clang_args : list string;
  in_clang_args : bool
}.

Definition noArguments : Arguments :=
  {| filename := None; arg_verbose := false; clang_args := [];
     in_clang_args := false |}.

(** The argument loop: [inl] is an early [return] with its status and what
    it wrote on the error stream. *)
Fixpoint scanArguments (prog : string) (argv : list string) (a : Arguments)
  : (Z * string) + Arguments :=
  match argv with
  | [] => inr a
  | arg :: rest =>
      if in_clang_args a then
        scanArguments prog rest
          {| filename := filename a; arg_verbose := arg_verbose a;
             clang_args := (clang_args a ++ [arg])%list;
             in_clang_args := in_clang_args a |}
      else if arg =? "--" then
        scanArguments prog rest
          {| filename := filename a; arg_verbose := arg_verbose a;
             clang_args := clang_args a; in_clang_args := true |}
      else if (arg =? "-v") || (arg =? "--verbose") then
        scanArguments prog rest
          {| filename := filename a; arg_verbose := true;
             clang_args := clang_args a; in_clang_args := in_clang_args a |}
      else if (arg =? "-h") || (arg =? "--help") then
        inl (0%Z, printUsage prog)
      else
        match filename a with
        | None =>
            scanArguments prog rest
              {| filename := Some arg; arg_verbose := arg_verbose a;
                 clang_args := clang_args a;
                 in_clang_args := in_clang_args a |}
        | Some _ =>
            inl (1%Z, "Error: Unknown argument: " ++ arg ++ nl
                      ++ printUsage prog)
        end
  end.

Definition defaultArguments : list string :=
  ["-fsyntax-only"; "-ferror-limit=0"; "-Wno-everything"].

(** The first part of [main], up to the complete argument list for the
    front-end: an early [return], or the file name, the verbosity and
    [all_args]. *)
Definition parseCommandLine (prog : string) (argv : list string)
  : (Z * string) + (string * bool * list string) :=
  if (S (List.length argv) <? 2)%nat then inl (1%Z, printUsage prog)
  else
    match scanArguments prog argv noArguments with
    | inl early => inl early
    | inr a =>
        match filename a with
        | None =>
            inl (1%Z, "Error: No input file specified" ++ nl ++ printUsage prog)
        | Some filename =>
            inr (filename, arg_verbose a,
                 (defaultArguments ++ clang_args a)%list)
        end
    end.

(** A parsed translation unit: its cursor tree and the name the front-end
    gives the main file. *)
Record CXTranslationUnit := {
  getTranslationUnitCursor : CursorNode;
  mainFileName : string
}.

(** What [main] asks of its environment: the front-end's parse of a file
    under given arguments (absent when it fails) and the contents of a file
    (absent when it cannot be read). *)
Record Environment := {
  clang_parseTranslationUnit : string -> list string -> option CXTranslationUnit;
  readFile : string -> option string
}.

Definition main (E : Environment) (prog : string) (argv : list string)
  : Process :=
  match parseCommandLine prog argv with
  | inl (status, err) =>
      {| stdout := ""; stderr := err; exit_status := status |}
  | inr (filename, verbose, all_args) =>
      match clang_parseTranslationUnit E filename all_args with
      | None =>
          {| stdout := "";
             stderr := "Error: Failed to parse " ++ filename ++ nl;
             exit_status := 1 |}
      | Some tu =>
          let data :=
            {| main_filename := mainFileName tu; macros := [];
               verbose := verbose;
               cerr := "=== Macro Analysis: " ++ filename ++ " ===" ++ nl |} in
          let '(_, data) :=
            clang_visitChildren VisitorData visitor
              (getTranslationUnitCursor tu) data in
          let data :=
            write (nl ++ "=== Total: " ++ to_string (List.length (macros data))
                   ++ " macro definitions ===" ++ nl) data in
          match readFile E filename with
          | None =>
              {| stdout := "";
                 stderr := cerr data ++ "Error: Could not read source file" ++ nl;
                 exit_status := 1 |}
          | Some contents =>
              {| stdout := contents; stderr := cerr data; exit_status := 0 |}
          end
      end
  end.

(** The cursor passes the three tests the callback makes before it looks at
    the kind. *)
Definition inMainFile (main_filename : string) (cursor : CXCursor) : bool :=
  negb (isInSystemHeader (getCursorLocation cursor))
  && match getFile (getCursorLocation cursor) with
     | Some filename => filename =? main_filename
     | None => false
     end.

(** The cursors the callback gets past those tests on, in order of visit: a
    cursor that fails them is passed over together with everything below
    it. *)
Fixpoint examined (main_filename : string) (N : CursorNode) : list CXCursor :=
  match N with
  | CNode cursor children =>
      if inMainFile main_filename cursor
      then cursor :: flat_map (examined main_filename) children
      else []
  end.

Definition isMacroDefinition (cursor : CXCursor) : bool :=
  match getCursorKind cursor with
  | CXCursor_MacroDefinition => true
  | _ => false
  end.

Definition macroInfoOf (cursor : CXCursor) : MacroInfo :=
  {| name := getCursorSpelling cursor;
     location := getLocation (getCursorLocation cursor);
     definition := getSourceText (extentTokens cursor);
     is_function_like := isMacroFunctionLike cursor |}.

(** The line the callback writes for a macro definition when not verbose. *)
Definition defineLine (info : MacroInfo) : string :=
  location info ++ ": #define " ++ name info
  ++ (if is_function_like info then "(...) [function-like]" else "") ++ nl.

Definition isHelp (arg : string) : bool := (arg =? "-h") || (arg =? "--help").

End MacroObserver.

(** The children of a cursor node. *)
Definition cursorChildren (N : MacroObserver.CursorNode)
  : list MacroObserver.CursorNode :=
  match N with MacroObserver.CNode _ children => children end.

(** [data'] is [data] after the callback got past its tests on the cursors
    [seen]: the macro definitions among them were appended, in order, and,
    when not verbose, one line per macro definition was written. *)
Definition visitedFrom (data data' : MacroObserver.VisitorData)
  (seen : list MacroObserver.CXCursor) : Prop :=
  MacroObserver.main_filename data' = MacroObserver.main_filename data /\
  MacroObserver.verbose data' = MacroObserver.verbose data /\
  MacroObserver.macros data'
  = (MacroObserver.macros data
     ++ map MacroObserver.macroInfoOf
          (filter MacroObserver.isMacroDefinition seen))%list /\
  (MacroObserver.verbose data = false ->
   MacroObserver.cerr data'
   = MacroObserver.cerr data
     ++ catLines (map MacroObserver.defineLine
                    (map MacroObserver.macroInfoOf
                       (filter MacroObserver.isMacroDefinition seen)))).

(** A source with two macros of its own behind an included header:
    [#include "limits.h"], [#define SIZE 16], [#define SQR(x) ((x)*(x))]. *)
Definition macroCursor (file : string) (system : bool) (line : nat)
  (spelling : string) (tokens : list string) (functionLike : bool)
  : MacroObserver.CXCursor :=
  {| MacroObserver.getCursorKind := MacroObserver.CXCursor_MacroDefinition;
     MacroObserver.getCursorLocation :=
       {| MacroObserver.isInSystemHeader := system;
          MacroObserver.getFile := Some file;
          MacroObserver.getLine := line;
          MacroObserver.getColumn := 9 |};
     MacroObserver.getCursorSpelling := spelling;
     MacroObserver.getCursorDisplayName := spelling;
     MacroObserver.extentTokens := tokens;
     MacroObserver.isMacroFunctionLike := functionLike |}.

Definition rootCursor : MacroObserver.CXCursor :=
  {| MacroObserver.getCursorKind := MacroObserver.CXCursor_OtherKind;
     MacroObserver.getCursorLocation :=
       {| MacroObserver.isInSystemHeader := false;
          MacroObserver.getFile := None;
          MacroObserver.getLine := 0;
          MacroObserver.getColumn := 0 |};
     MacroObserver.getCursorSpelling := "m.c";
     MacroObserver.getCursorDisplayName := "m.c";
     MacroObserver.extentTokens := [];
     MacroObserver.isMacroFunctionLike := false |}.

Definition macroUnit : MacroObserver.CXTranslationUnit :=
  {| MacroObserver.getTranslationUnitCursor :=
       MacroObserver.CNode rootCursor
         [ MacroObserver.CNode
             (macroCursor "/usr/include/limits.h" true 30 "CHAR_BIT"
                ["CHAR_BIT"; "8"] false) [];
           MacroObserver.CNode
             (macroCursor "m.c" false 2 "SIZE" ["SIZE"; "16"] false) [];
           MacroObserver.CNode
             (macroCursor "m.c" false 3 "SQR"
                ["SQR"; "("; "x"; ")"; "("; "("; "x"; ")"; "*"; "("; "x"; ")"; ")"]
                true) [] ];
     MacroObserver.mainFileName := "m.c" |}.

Definition macroSource : string :=
  "#include <limits.h>" ++ nl ++ "#define SIZE 16" ++ nl
  ++ "#define SQR(x) ((x)*(x))" ++ nl.

Definition macroEnvironment : MacroObserver.Environment :=
  {| MacroObserver.clang_parseTranslationUnit :=
       fun filename _ => if filename =? "m.c" then Some macroUnit else None;
     MacroObserver.readFile :=
       fun filename => if filename =? "m.c" then Some macroSource else None |}.

Section CursorNode_induction.

Variable P : MacroObserver.CursorNode -> Prop.
Hypothesis P_CNode :
  forall cursor children,
    Forall P children -> P (MacroObserver.CNode cursor children).

Fixpoint CursorNode_forall_ind (N : MacroObserver.CursorNode) : P N :=
  match N with
  | MacroObserver.CNode cursor children =>
      P_CNode cursor children
        ((fix all (cs : list MacroObserver.CursorNode) : Forall P cs :=
            match cs with
            | [] => Forall_nil P
            | c :: cs' => Forall_cons c (CursorNode_forall_ind c) (all cs')
            end) children)
  end.

End CursorNode_induction.

(** * The syntax-check wrapper (src/bin/vi-perl.cc): path rewriting *)

Module ViPerl.

(** [std::string::find(str)]: the position of the first occurrence of [str],
    absent ([npos]) when there is none. *)
Fixpoint find (line str : string) : option nat :=
  if prefix str line then Some 0%nat
  else
    match line with
    | EmptyString => None
    | String _ rest => option_map S (find rest str)
    end.

(** [std::string::replace(pos, len, str)], for [pos] within the text. *)
Definition replace (line : string) (pos len : nat) (str : string) : string :=
  substring 0 pos line ++ str
  ++ substring (pos + len) (String.length line - (pos + len)) line.

(** [munge_line]; the two globals are parameters. *)
Definition munge_line (real_path sudo_path line : string) : string :=
  if negb (sudo_path =? "") then
    match find line real_path with
    | Some pos => replace line pos (String.length real_path) sudo_path
    | None => line
    end
  else line.

End ViPerl.

(** The argument is one the argument loop of the macro observer knows. *)
Definition recognisedOption (arg : string) : bool :=
  (arg =? "--") || ((arg =? "-v") || (arg =? "--verbose"))
  || MacroObserver.isHelp arg.

(** * Spelling, expansion and implicit declarations

    Two facts of the front-end that the walked tree and the three-question
    location service above abstract from. *)

Module FilePosition.
Record t := { file : nat; line : nat; column : nat }.
End FilePosition.

(** What an encoded location stands for: a position in a file buffer, or a
    token that comes out of a macro expansion, which has two positions, the
    one where the token is spelled (inside the macro's body) and the one
    where the macro is expanded. *)
Inductive SLocEntry :=
| InFile (position : FilePosition.t)
| InMacroExpansion (spelling expansion : FilePosition.t).

Definition getSpellingLoc (entry : SLocEntry) : FilePosition.t :=
  match entry with
  | InFile position => position
  | InMacroExpansion spelling _ => spelling
  end.

Definition getExpansionLoc (entry : SLocEntry) : FilePosition.t :=
  match entry with
  | InFile position => position
  | InMacroExpansion _ expansion => expansion
  end.

(** The source manager's tables: the main file and the entry of every valid
    encoding. *)
Record SLocTable := {
  getMainFileID : nat;
  getSLocEntry : nat -> SLocEntry
}.

(** The location is valid and its expansion point is in the main file: what
    [SourceManager::isInMainFile] decides. *)
Definition expandedInMainFile (T : SLocTable) (L : SourceLocation.t) : bool :=
  SourceLocation.isValid L
  && (FilePosition.file (getExpansionLoc (getSLocEntry T (SourceLocation.ID L)))
      =? getMainFileID T)%nat.

(** The location is valid and its spelling point is in the main file. *)
Definition spelledInMainFile (T : SLocTable) (L : SourceLocation.t) : bool :=
  SourceLocation.isValid L
  && (FilePosition.file (getSpellingLoc (getSLocEntry T (SourceLocation.ID L)))
      =? getMainFileID T)%nat.

(** The location service over these tables: [isInMainFile] looks at the
    expansion point, the spelling line and column at the spelling point. *)
Definition tableManager (T : SLocTable) : SourceManager.t :=
  {| SourceManager.isInMainFile := expandedInMainFile T;
     SourceManager.getSpellingLineNumber L :=
       if SourceLocation.isValid L
       then FilePosition.line
              (getSpellingLoc (getSLocEntry T (SourceLocation.ID L)))
       else 0%nat;
     SourceManager.getSpellingColumnNumber L :=
       if SourceLocation.isValid L
       then FilePosition.column
              (getSpellingLoc (getSLocEntry T (SourceLocation.ID L)))
       else 0%nat |}.

(** The semantic tree: every declaration with the declarations nested in it
    (members, enumerators, parameters, local declarations), and whether the
    front-end made it up itself ([Decl::isImplicit]) rather than read it
    from the source. *)
#[warnings="-register-all"]
Inductive ASTNode :=
  ASTDecl (D : Decl) (isImplicit : bool) (children : list ASTNode).

(** [RecursiveASTVisitor::TraverseDecl] on the semantic tree: the visitor
    does not override [shouldVisitImplicitCode], so an implicit declaration
    is passed over together with everything below it; any other declaration
    is handed to the hooks and its children are traversed. *)
Fixpoint TraverseASTDecl (SM : SourceManager.t) (N : ASTNode)
  (Decls : list DeclInfo) : option (bool * list DeclInfo) :=
  match N with
  | ASTDecl D isImplicit children =>
      if isImplicit then Some (true, Decls)
      else
        '(go_on, Decls) <- WalkUpFrom SM D Decls ;;
        if go_on then
          (fix TraverseASTChildren (cs : list ASTNode) (Decls : list DeclInfo)
             : option (bool * list DeclInfo) :=
             match cs with
             | [] => Some (true, Decls)
             | c :: cs' =>
                 '(go_on, Decls) <- TraverseASTDecl SM c Decls ;;
                 if go_on then TraverseASTChildren cs' Decls
                 else Some (false, Decls)
             end) children Decls
        else Some (false, Decls)
  end.

Definition TraverseASTChildren (SM : SourceManager.t)
  : list ASTNode -> list DeclInfo -> option (bool * list DeclInfo) :=
  fix TraverseASTChildren (cs : list ASTNode) (Decls : list DeclInfo) :=
    match cs with
    | [] => Some (true, Decls)
    | c :: cs' =>
        '(go_on, Decls) <- TraverseASTDecl SM c Decls ;;
        if go_on then TraverseASTChildren cs' Decls
        else Some (false, Decls)
    end.



(** The declarations that are not implicit and sit below no implicit
    declaration, in pre-order. *)
Fixpoint explicitDecls (N : ASTNode) : list Decl :=
  match N with
  | ASTDecl D isImplicit children =>
      if isImplicit then [] else D :: flat_map explicitDecls children
  end.

(** The part of the semantic tree the traversal walks. *)
Fixpoint walkedTrees (N : ASTNode) : list DeclNode :=
  match N with
  | ASTDecl D isImplicit children =>
      if isImplicit then [] else [Node D (flat_map walkedTrees children)]
  end.


(** Provenance as the specification words it: the position every record
    stores lies in the main file. *)
Definition positionedInMainFile (T : SLocTable) (N : DeclNode) : Prop :=
  forall D,
    In D (filter (recorded (tableManager T)) (preorder N)) ->
    spelledInMainFile T (getLocation D) = true.

(** Tables by enumeration; file 1 is the main file, file 2 an included one,
    and an encoding that is not listed belongs to no file. *)
Definition at_file (file line column : nat) : FilePosition.t :=
  {| FilePosition.file := file; FilePosition.line := line;
     FilePosition.column := column |}.

Fixpoint lookupEntry (entries : list (nat * SLocEntry)) (ID : nat) : SLocEntry :=
  match entries with
  | [] => InFile (at_file 0 0 0)
  | (ID', entry) :: rest => if (ID =? ID')%nat then entry else lookupEntry rest ID
  end.

Definition tableOf (entries : list (nat * SLocEntry)) : SLocTable :=
  {| getMainFileID := 1; getSLocEntry := lookupEntry entries |}.




(** The included file defines [#define X_LIST int gx;] on its line 1; the
    main file includes it on line 1 and consists of [X_LIST] on line 2: the
    name [gx] is spelled in the included file (1:20) and expanded in the
    main file (2:1). *)
Definition listTable : SLocTable :=
  tableOf [ (1, InMacroExpansion (at_file 2 1 20) (at_file 1 2 1)) ].

Definition listTree : DeclNode :=
  TranslationUnit [ Node (varDecl 1 "int" "gx") [] ].







(** The main file of [includeText] again, with the tables spelled out: the
    included file is file 2. *)
Definition includeTable : SLocTable :=
  tableOf [ (23, InFile (at_file 1 2 5)); (1008, InFile (at_file 2 3 8));
            (1025, InFile (at_file 2 3 25)); (1040, InFile (at_file 2 5 5)) ].

Section ASTNode_induction.

Variable P : ASTNode -> Prop.
Hypothesis P_ASTDecl :
  forall D isImplicit children,
    Forall P children -> P (ASTDecl D isImplicit children).

Fixpoint ASTNode_forall_ind (N : ASTNode) : P N :=
  match N with
  | ASTDecl D isImplicit children =>
      P_ASTDecl D isImplicit children
        ((fix all (cs : list ASTNode) : Forall P cs :=
            match cs with
            | [] => Forall_nil P
            | c :: cs' => Forall_cons c (ASTNode_forall_ind c) (all cs')
            end) children)
  end.

End ASTNode_induction.

(** ** Induction over trees *)

Section DeclNode_induction.

Variable P : DeclNode -> Prop.
Hypothesis P_Node : forall D children, Forall P children -> P (Node D children).

Fixpoint DeclNode_forall_ind (N : DeclNode) : P N :=
  match N with
  | Node D children =>
      P_Node D children
        ((fix all (cs : list DeclNode) : Forall P cs :=
            match cs with
            | [] => Forall_nil P
            | c :: cs' => Forall_cons c (DeclNode_forall_ind c) (all cs')
            end) children)
  end.

End DeclNode_induction.

(** ** Basic facts *)

(** Case analysis on the dynamic class of a declaration. *)
Ltac by_class D := destruct D as [? [?|?|?|?|?|?|?|? ?|?]].

Lemma append_nil_r (s : string) : s ++ "" = s.
Proof. induction s as [|c s IH]; simpl; [reflexivity | now rewrite IH]. Qed.

(** [operator+] on texts is associative, so the grouping of a chain of
    concatenations is immaterial. *)
Lemma append_assoc (a b c : string) : (a ++ b) ++ c = a ++ (b ++ c).
Proof. induction a as [|x a IH]; simpl; [reflexivity | now rewrite IH]. Qed.

Lemma TraverseDecl_Node SM D children Decls :
  TraverseDecl SM (Node D children) Decls =
  ('(go_on, Decls) <- WalkUpFrom SM D Decls ;;
   if go_on then TraverseChildren SM children Decls else Some (false, Decls)).
Proof. reflexivity. Qed.

(** The renderer's final cast fails on unnamed declarations only. *)
Lemma getDeclarationString_total D :
  (exists K, getClass D = IsUnnamed K) \/
  exists s, getDeclarationString D = Some s.
Proof.
  by_class D;
    try (right; eexists; reflexivity).
  left; eexists; reflexivity.
Qed.

Lemma addDeclaration_hooked SM D Decls :
  hasVisitHook D = true ->
  addDeclaration SM D Decls =
  Some (if shouldVisitDecl SM D then Decls ++ [recordOf SM D] else Decls)%list.
Proof.
  intros Hk. unfold addDeclaration, recordOf.
  destruct (shouldVisitDecl SM D); simpl; [|reflexivity].
  by_class D; try discriminate Hk;
    reflexivity.
Qed.

Lemma WalkUpFrom_spec SM D Decls :
  WalkUpFrom SM D Decls =
  Some (true, (Decls ++ map (recordOf SM) (filter (recorded SM) [D]))%list).
Proof.
  unfold recorded.
  destruct (hasVisitHook D) eqn:Hk.
  - assert (HW : WalkUpFrom SM D Decls =
                 (Decls' <- addDeclaration SM D Decls ;; Some (true, Decls'))).
    { by_class D; try discriminate Hk;
        reflexivity. }
    rewrite HW, addDeclaration_hooked by assumption. simpl.
    rewrite Hk, andb_true_r.
    destruct (shouldVisitDecl SM D); simpl; [reflexivity|].
    now rewrite app_nil_r.
  - simpl. rewrite Hk, andb_false_r. simpl. rewrite app_nil_r.
    by_class D; try discriminate Hk;
      reflexivity.
Qed.

Lemma TraverseChildren_spec SM cs :
  Forall (fun N => forall Decls,
            TraverseDecl SM N Decls =
            Some (true, (Decls ++ recordsOf SM [N])%list)) cs ->
  forall Decls,
    TraverseChildren SM cs Decls = Some (true, (Decls ++ recordsOf SM cs)%list).
Proof.
  induction 1 as [|c cs Hc _ IH]; intros Decls; simpl.
  - unfold recordsOf. simpl. now rewrite app_nil_r.
  - rewrite Hc. simpl. rewrite IH. unfold recordsOf. simpl.
    rewrite app_nil_r, filter_app, map_app, app_assoc. reflexivity.
Qed.

(** The walk never stops early, never hits the failing cast, and appends
    the records of the hooked eligible nodes in pre-order. *)
Lemma TraverseDecl_spec SM N :
  forall Decls,
    TraverseDecl SM N Decls = Some (true, (Decls ++ recordsOf SM [N])%list).
Proof.
  induction N as [D children IH] using DeclNode_forall_ind. intros Decls.
  rewrite TraverseDecl_Node, WalkUpFrom_spec. simpl.
  rewrite (TraverseChildren_spec SM children IH).
  unfold recordsOf. simpl. rewrite app_nil_r.
  destruct (recorded SM D); simpl; rewrite <- ?app_assoc; reflexivity.
Qed.

Lemma collect_spec SM N : collect SM N = Some (recordsOf SM [N]).
Proof. unfold collect. now rewrite TraverseDecl_spec. Qed.

Lemma recordsOf_app SM Ns Ms :
  recordsOf SM (Ns ++ Ms) = (recordsOf SM Ns ++ recordsOf SM Ms)%list.
Proof. unfold recordsOf. now rewrite flat_map_app, filter_app, map_app. Qed.

Lemma recordsOf_cons SM D children Ns :
  recordsOf SM (Node D children :: Ns) =
  ((if recorded SM D then [recordOf SM D] else [])
   ++ recordsOf SM children ++ recordsOf SM Ns)%list.
Proof.
  unfold recordsOf. simpl.
  destruct (recorded SM D); simpl; rewrite filter_app, map_app; reflexivity.
Qed.

Lemma runConsumers_spec TUs :
  forall Decls,
    runConsumers TUs Decls =
    Some (Decls ++ flat_map (fun Context =>
                               recordsOf (getSourceManager Context)
                                 [getTranslationUnitDecl Context]) TUs)%list.
Proof.
  induction TUs as [|Context TUs IH]; intros Decls; simpl.
  - now rewrite app_nil_r.
  - unfold HandleTranslationUnit. rewrite TraverseDecl_spec. simpl.
    rewrite IH, <- app_assoc. reflexivity.
Qed.

Lemma printDecls_spec DefinitionsOnly Decls :
  forall cout,
    printDecls DefinitionsOnly Decls cout =
    cout ++ catLines (map reportLine
                        (filter (fun decl => negb DefinitionsOnly || is_definition decl)
                           Decls)).
Proof.
  induction Decls as [|decl Decls IH]; intros cout; simpl.
  - now rewrite append_nil_r.
  - destruct DefinitionsOnly, (is_definition decl); simpl;
      rewrite IH, ?append_assoc; reflexivity.
Qed.

Lemma recordsOf_TranslationUnit SM children :
  recordsOf SM [TranslationUnit children] = recordsOf SM children.
Proof.
  unfold TranslationUnit. rewrite recordsOf_cons.
  replace (recorded SM _) with false by reflexivity.
  simpl. unfold recordsOf at 2. simpl. now rewrite app_nil_r.
Qed.

Lemma recorded_named SM D :
  negb (shouldVisitDecl SM D && isOtherNamed D) = true ->
  recorded SM D = shouldVisitDecl SM D && isNamedDecl D.
Proof.
  unfold recorded. destruct (shouldVisitDecl SM D); simpl; [|reflexivity].
  by_class D; simpl;
    intros H; try reflexivity; discriminate H.
Qed.

Lemma filter_recorded_named SM Ds :
  forallb (fun D => negb (shouldVisitDecl SM D && isOtherNamed D)) Ds = true ->
  filter (recorded SM) Ds =
  filter (fun D => shouldVisitDecl SM D && isNamedDecl D) Ds.
Proof.
  induction Ds as [|D Ds IH]; simpl; [reflexivity|].
  intros H. apply andb_true_iff in H. destruct H as [HD HDs].
  rewrite (recorded_named SM D HD), (IH HDs). reflexivity.
Qed.

Lemma shouldVisitDecl_true SM D :
  shouldVisitDecl SM D = true <->
  SourceLocation.isValid (getLocation D) = true /\
  SourceManager.isInMainFile SM (getLocation D) = true.
Proof.
  unfold shouldVisitDecl.
  destruct (SourceLocation.isValid (getLocation D));
    destruct (SourceManager.isInMainFile SM (getLocation D)); simpl;
    intuition congruence.
Qed.

(** ** Completeness of the traversal *)

(** Over the walked tree: the static assertion of [assertText] lies in the
    main file, so two nodes pass the location guard, yet the walk collects
    the single record of the variable. *)
Lemma completeness_fails_on_unnamed_declaration :
  collect (mainBuffer assertText) assertTree
  = Some [ {| kind := "Var"; declaration := "int x;"; is_definition := false;
              line := 2; column := 5 |} ]
  /\ List.length
       (filter (shouldVisitDecl (mainBuffer assertText)) (preorder assertTree))
     = 2%nat
  /\ ~ (exists Decls,
          collect (mainBuffer assertText) assertTree = Some Decls /\
          List.length Decls =
          List.length (filter (shouldVisitDecl (mainBuffer assertText))
                         (preorder assertTree))).
Proof.
  split; [reflexivity|]. split; [reflexivity|].
  intros [Decls [HD HL]]. vm_compute in HD. injection HD as <-.
  vm_compute in HL. discriminate HL.
Qed.

(** Over the walked tree and any location service: on a tree whose
    location-eligible named declarations all
    belong to the seven hooked classes, the walk returns, and the records are
    exactly those of the location-eligible named declarations, one per node,
    in depth-first pre-order; their number is the number of such nodes.
    (Eligible declarations without a name produce no record.) *)
Theorem records_are_eligible_named_nodes_in_preorder
  (SM : SourceManager.t) (N : DeclNode) :
  forallb (fun D => negb (shouldVisitDecl SM D && isOtherNamed D)) (preorder N)
  = true ->
  exists Decls,
    collect SM N = Some Decls /\
    Decls = map (recordOf SM)
              (filter (fun D => shouldVisitDecl SM D && isNamedDecl D)
                 (preorder N)) /\
    List.length Decls =
    List.length (filter (fun D => shouldVisitDecl SM D && isNamedDecl D)
                   (preorder N)).
Proof.
  intros H. eexists. split; [apply collect_spec|].
  unfold recordsOf. simpl. rewrite app_nil_r.
  rewrite (filter_recorded_named SM (preorder N) H).
  split; [reflexivity | apply length_map].
Qed.

Lemma records_are_eligible_named_nodes_in_preorder_witness :
  exists Decls,
    collect (mainBuffer scenarioText) scenarioTree = Some Decls /\
    Decls = map (recordOf (mainBuffer scenarioText))
              (filter (fun D => shouldVisitDecl (mainBuffer scenarioText) D
                                && isNamedDecl D)
                 (preorder scenarioTree)) /\
    List.length Decls =
    List.length (filter (fun D => shouldVisitDecl (mainBuffer scenarioText) D
                                  && isNamedDecl D)
                   (preorder scenarioTree)).
Proof.
  apply (records_are_eligible_named_nodes_in_preorder
           (mainBuffer scenarioText) scenarioTree).
  vm_compute. reflexivity.
Defined.

(** ** Provenance of the records *)

(** Over the walked tree and any location service: the walk returns, and
    every record it collects was built from a node
    of the tree whose location is valid and lies in the main file; a node
    whose location is invalid or lies in any other file leaves the vector
    untouched, and a tree made of such nodes only yields no record. *)
Theorem records_lie_in_main_file (SM : SourceManager.t) (N : DeclNode) :
  (forall D Decls,
      SourceLocation.isValid (getLocation D) = false \/
      SourceManager.isInMainFile SM (getLocation D) = false ->
      addDeclaration SM D Decls = Some Decls) /\
  exists Ds,
    collect SM N = Some (map (recordOf SM) Ds) /\
    (forall D, In D Ds ->
       In D (preorder N) /\
       SourceLocation.isValid (getLocation D) = true /\
       SourceManager.isInMainFile SM (getLocation D) = true) /\
    ((forall D, In D (preorder N) ->
        SourceLocation.isValid (getLocation D) = false \/
        SourceManager.isInMainFile SM (getLocation D) = false) ->
     Ds = []).
Proof.
  split.
  - intros D Decls H. unfold addDeclaration, shouldVisitDecl.
    destruct H as [H|H]; rewrite H; simpl; [reflexivity|].
    destruct (SourceLocation.isValid (getLocation D)); reflexivity.
  - exists (filter (recorded SM) (preorder N)). split; [|split].
    + rewrite collect_spec. unfold recordsOf. simpl. now rewrite app_nil_r.
    + intros D HD. apply filter_In in HD. destruct HD as [HIn HR].
      unfold recorded in HR. apply andb_true_iff in HR.
      destruct HR as [HS _]. apply shouldVisitDecl_true in HS. tauto.
    + intros Hall.
      destruct (filter (recorded SM) (preorder N)) as [|D Ds] eqn:E;
        [reflexivity|].
      assert (HD : In D (filter (recorded SM) (preorder N)))
        by (rewrite E; left; reflexivity).
      apply filter_In in HD. destruct HD as [HIn HR].
      unfold recorded in HR. apply andb_true_iff in HR.
      destruct HR as [HS _]. apply shouldVisitDecl_true in HS.
      destruct (Hall D HIn) as [H|H]; destruct HS; congruence.
Qed.

Lemma records_lie_in_main_file_witness :
  addDeclaration (mainBuffer includeText) (fDecl 1040 false) [] = Some [] /\
  collect (mainBuffer includeText) includeTree
  = Some [ {| kind := "Var"; declaration := "int x;"; is_definition := false;
              line := 2; column := 5 |} ].
Proof.
  destruct (records_lie_in_main_file (mainBuffer includeText) includeTree)
    as [Hskip [Ds [Hcollect _]]].
  split.
  - apply Hskip. right. reflexivity.
  - rewrite Hcollect. f_equal.
    vm_compute in Hcollect. injection Hcollect as Hmap. symmetry. exact Hmap.
Defined.

(** ** The report emitter *)

Lemma main_parsed OptionsParser FE :
  main (inr OptionsParser) FE =
  Some {| stdout :=
            printResults OptionsParser
              (flat_map (fun Context =>
                           recordsOf (getSourceManager Context)
                             [getTranslationUnitDecl Context])
                 (translationUnits FE));
          stderr := diagnostics FE;
          exit_status := Result FE |}.
Proof.
  unfold main, Tool_run. rewrite runConsumers_spec. reflexivity.
Qed.

Lemma printResults_spec OptionsParser Decls :
  printResults OptionsParser Decls =
  reportHeader (getSourcePathList OptionsParser)
  ++ catLines (map reportLine
                 (filter (fun decl => negb (DefinitionsOnly OptionsParser)
                                      || is_definition decl) Decls))
  ++ totalLine Decls.
Proof.
  unfold printResults. rewrite printDecls_spec, append_assoc. reflexivity.
Qed.

Lemma filter_all {A : Type} (l : list A) : filter (fun _ => true) l = l.
Proof. induction l as [|a l IH]; simpl; [reflexivity | now rewrite IH]. Qed.

(** C3: for every command line and every run of the front-end, the tool run
    collects one sequence [Decls] of records such that the report without the
    definitions-only flag prints the line of every record, the report with
    the flag prints exactly the lines of the records with
    [is_definition = true], in the same order, and both end with the same
    total line, which counts all of [Decls]. *)
Theorem definitions_only_filters_report
  (m : bool) (paths : list string) (FE : FrontEndRun) :
  exists Decls,
    Tool_run FE [] = Some (Result FE, Decls) /\
    main (inr (commandLine m false paths)) FE
    = Some {| stdout := reportHeader paths
                        ++ catLines (map reportLine Decls)
                        ++ totalLine Decls;
              stderr := diagnostics FE;
              exit_status := Result FE |} /\
    main (inr (commandLine m true paths)) FE
    = Some {| stdout := reportHeader paths
                        ++ catLines (map reportLine (filter is_definition Decls))
                        ++ totalLine Decls;
              stderr := diagnostics FE;
              exit_status := Result FE |} /\
    totalLine Decls
    = nl ++ "=== Total: " ++ to_string (List.length Decls) ++ " items ===" ++ nl.
Proof.
  eexists. unfold Tool_run at 1. rewrite runConsumers_spec.
  rewrite !main_parsed, !printResults_spec. simpl.
  rewrite filter_all. repeat split; reflexivity.
Qed.

(** ** Definition versus declaration *)

(** C4: [isDefinition] is true exactly on a function, record or enum
    occurrence whose own defining-instance flag is set, and false on every
    other kind of node.  Hence, for a function declared ([D1]) and later
    defined ([D2]) in the main file, whatever surrounds them, the walk
    collects one record for each occurrence, the one of [D1] first with
    [is_definition = false], the one of [D2] later with
    [is_definition = true]. *)
Theorem isDefinition_per_occurrence :
  (forall D,
      isDefinition D = true <->
      (exists FD, dyn_cast_FunctionDecl D = Some FD /\
                  FunctionDecl.isThisDeclarationADefinition FD = true) \/
      (exists RD, dyn_cast_RecordDecl D = Some RD /\
                  RecordDecl.isThisDeclarationADefinition RD = true) \/
      (exists ED, dyn_cast_EnumDecl D = Some ED /\
                  EnumDecl.isThisDeclarationADefinition ED = true)) /\
  (forall D,
      dyn_cast_FunctionDecl D = None -> dyn_cast_RecordDecl D = None ->
      dyn_cast_EnumDecl D = None -> isDefinition D = false) /\
  (forall SM pre mid post D1 cs1 D2 cs2 FD1 FD2,
      dyn_cast_FunctionDecl D1 = Some FD1 ->
      FunctionDecl.isThisDeclarationADefinition FD1 = false ->
      dyn_cast_FunctionDecl D2 = Some FD2 ->
      FunctionDecl.isThisDeclarationADefinition FD2 = true ->
      shouldVisitDecl SM D1 = true ->
      shouldVisitDecl SM D2 = true ->
      collect SM (TranslationUnit
                    (pre ++ Node D1 cs1 :: mid ++ Node D2 cs2 :: post))
      = Some (recordsOf SM pre
              ++ recordOf SM D1 :: recordsOf SM (cs1 ++ mid)
              ++ recordOf SM D2 :: recordsOf SM (cs2 ++ post))%list /\
      is_definition (recordOf SM D1) = false /\
      is_definition (recordOf SM D2) = true).
Proof.
  split; [|split].
  - intros [L C]; destruct C; unfold isDefinition; simpl; split.
    all: try (intros H;
              first [ discriminate H
                    | left; eexists; split; [reflexivity | exact H]
                    | right; left; eexists; split; [reflexivity | exact H]
                    | right; right; eexists; split; [reflexivity | exact H] ]).
    all: intros [[x [H1 H2]]|[[x [H1 H2]]|[x [H1 H2]]]];
      try discriminate H1; injection H1 as <-; exact H2.
  - intros D HF HR HE. unfold isDefinition. now rewrite HF, HR, HE.
  - intros SM pre mid post D1 cs1 D2 cs2 FD1 FD2 H1 Hf1 H2 Hf2 Hs1 Hs2.
    assert (Hr : forall D FD, dyn_cast_FunctionDecl D = Some FD ->
                              shouldVisitDecl SM D = true ->
                              recorded SM D = true).
    { intros D FD HD HS. unfold recorded. rewrite HS. simpl.
      unfold dyn_cast_FunctionDecl in HD. unfold hasVisitHook.
      destruct (getClass D); try discriminate HD; reflexivity. }
    split; [|split].
    + rewrite collect_spec, recordsOf_TranslationUnit, recordsOf_app,
        recordsOf_cons, (Hr D1 FD1 H1 Hs1), recordsOf_app, recordsOf_cons,
        (Hr D2 FD2 H2 Hs2), !recordsOf_app.
      simpl. rewrite <- !app_assoc. simpl. reflexivity.
    + simpl. unfold isDefinition. now rewrite H1.
    + simpl. unfold isDefinition. now rewrite H2.
Qed.

Lemma isDefinition_per_occurrence_witness :
  collect (mainBuffer scenarioText) scenarioTree
  = Some (recordsOf (mainBuffer scenarioText)
            [ Node (connectionDecl 8 false) [];
              Node CONNECTIONDecl [];
              Node (connectionDecl 65 true)
                [ Node (fieldDecl 82 "int" "fd") [];
                  Node (fieldDecl 98 "CONNECTION *" "next") [] ] ]
          ++ recordOf (mainBuffer scenarioText) (fDecl 111 false)
             :: recordsOf (mainBuffer scenarioText) ([] ++ [])
          ++ recordOf (mainBuffer scenarioText) (fDecl 124 true)
             :: recordsOf (mainBuffer scenarioText) ([] ++ []))%list /\
  is_definition (recordOf (mainBuffer scenarioText) (fDecl 111 false)) = false /\
  is_definition (recordOf (mainBuffer scenarioText) (fDecl 124 true)) = true.
Proof.
  apply (proj2 (proj2 isDefinition_per_occurrence)
           (mainBuffer scenarioText)
           [ Node (connectionDecl 8 false) [];
             Node CONNECTIONDecl [];
             Node (connectionDecl 65 true)
               [ Node (fieldDecl 82 "int" "fd") [];
                 Node (fieldDecl 98 "CONNECTION *" "next") [] ] ]
           [] [] (fDecl 111 false) [] (fDecl 124 true) []
           _ _ eq_refl eq_refl eq_refl eq_refl);
    reflexivity.
Defined.

(** ** Declarations outside the seven hooked classes *)

(** C5 (the code departs from the claim): the renderer does give a named
    declaration of any other class the generic signature, but no hook hands
    such a node to [addDeclaration]: the walk passes over it without a
    record, whatever its location.  In [namespace ns { int x; }] the
    namespace lies in the main file and would render as [Namespace: ns], yet
    the only record is the one of [x]. *)
Theorem other_named_declaration_not_recorded :
  (forall SM L K Name Decls,
      getDeclarationString {| getLocation := L; getClass := IsOtherNamed K Name |}
      = Some (OtherNamedKindName K ++ ": " ++ Name) /\
      WalkUpFrom SM {| getLocation := L; getClass := IsOtherNamed K Name |} Decls
      = Some (true, Decls)) /\
  shouldVisitDecl (mainBuffer namespaceText) nsDecl = true /\
  getDeclarationString nsDecl = Some "Namespace: ns" /\
  collect (mainBuffer namespaceText) namespaceTree
  = Some [ {| kind := "Var"; declaration := "int x;"; is_definition := false;
              line := 1; column := 20 |} ].
Proof.
  split; [|repeat split; reflexivity].
  intros SM L K Name Decls. split; reflexivity.
Qed.

(** ** The five-line scenario *)

(** C6, as stated, fails: the walk over the scenario does not collect the six
    expected records with a total of 6. *)
Lemma scenario_has_not_six_records :
  ~ (exists Decls,
        collect (mainBuffer scenarioText) scenarioTree = Some Decls /\
        map signatureAndStatus Decls = scenarioExpectedSix /\
        totalLine Decls = nl ++ "=== Total: 6 items ===" ++ nl).
Proof.
  intros [Decls [HD [HS _]]]. vm_compute in HD. injection HD as <-.
  vm_compute in HS. discriminate HS.
Qed.

(** C6, amended: the scenario yields seven records, the six expected ones
    and, after [int fd;], the record [CONNECTION * next;] of the second
    field (a declaration); the reported total is 7. *)
Theorem scenario_has_seven_records :
  exists Decls,
    collect (mainBuffer scenarioText) scenarioTree = Some Decls /\
    map signatureAndStatus Decls
    = [ ("struct connection;", false);
        ("typedef struct connection CONNECTION;", false);
        ("struct connection;", true);
        ("int fd;", false);
        ("CONNECTION * next;", false);
        ("int f(void);", false);
        ("int f(void);", true) ] /\
    totalLine Decls = nl ++ "=== Total: 7 items ===" ++ nl /\
    forall m path,
      main (inr (commandLine m false [path]))
        {| translationUnits := [scenarioContext]; diagnostics := ""; Result := 0 |}
      = Some {| stdout :=
                  "=== Declarations from " ++ path ++ " ===" ++ nl ++ nl
                  ++ "struct connection;  // declaration at 1:8" ++ nl
                  ++ "typedef struct connection CONNECTION;  // declaration at 2:27" ++ nl
                  ++ "struct connection;  // definition at 3:8" ++ nl
                  ++ "int fd;  // declaration at 3:25" ++ nl
                  ++ "CONNECTION * next;  // declaration at 3:41" ++ nl
                  ++ "int f(void);  // declaration at 4:5" ++ nl
                  ++ "int f(void);  // definition at 5:5" ++ nl
                  ++ nl ++ "=== Total: 7 items ===" ++ nl;
                stderr := "";
                exit_status := 0 |}.
Proof.
  eexists. split; [vm_compute; reflexivity|].
  split; [reflexivity|]. split; [reflexivity|].
  intros m path. rewrite main_parsed, printResults_spec.
  match goal with
  | |- Some {| stdout := ?a; stderr := _; exit_status := _ |} = Some ?Q =>
      assert (E : a = stdout Q)
  end.
  { change (reportHeader (getSourcePathList (commandLine m false [path])))
      with ("=== Declarations from " ++ path ++ " ===" ++ nl ++ nl).
    cbv beta iota delta [stdout]. rewrite !append_assoc.
    do 2 f_equal. }
  rewrite E. reflexivity.
Qed.

(** ** Exit status and failed runs *)

(** C7, as stated, fails: on [undeclaredText] the front-end recovers, a tree
    is built and traversed and the report is complete, yet the exit status
    is the 1 the tool run returned. *)
Lemma exit_status_nonzero_with_tree :
  main (inr (commandLine false false ["t.c"])) undeclaredRun
  = Some {| stdout :=
              "=== Declarations from t.c ===" ++ nl ++ nl
              ++ "int f(void);  // definition at 1:5" ++ nl
              ++ nl ++ "=== Total: 1 items ===" ++ nl;
            stderr := "error: use of undeclared identifier 'y'" ++ nl;
            exit_status := 1 |}
  /\ ~ (forall P,
          main (inr (commandLine false false ["t.c"])) undeclaredRun = Some P ->
          (exit_status P = 0%Z <-> translationUnits undeclaredRun <> [])).
Proof.
  split; [reflexivity|].
  intros H. specialize (H _ eq_refl). simpl in H.
  destruct H as [_ H]. discriminate H. discriminate.
Qed.

(** C7, amended: [main] always returns; its exit status is 1 when the
    command line cannot be parsed, and otherwise exactly the integer the
    tool run returned, whether or not a tree was built; so it is 0 exactly
    when the command line was parsed and the tool run returned 0. *)
Theorem exit_status_is_front_end_result
  (ExpectedParser : string + CommonOptionsParser) (FE : FrontEndRun) :
  exists P,
    main ExpectedParser FE = Some P /\
    exit_status P = match ExpectedParser with
                    | inl _ => 1%Z
                    | inr _ => Result FE
                    end /\
    (exit_status P = 0%Z <->
     exists OptionsParser,
       ExpectedParser = inr OptionsParser /\ Result FE = 0%Z).
Proof.
  destruct ExpectedParser as [Err|OptionsParser].
  - eexists. split; [reflexivity|]. split; [reflexivity|]. simpl. split.
    + discriminate.
    + intros [O [H _]]. discriminate H.
  - eexists. split; [apply main_parsed|]. split; [reflexivity|]. simpl. split.
    + intros H. eauto.
    + intros [O [_ H]]. exact H.
Qed.

(** C8, as stated, fails: on a missing file no tree is built and the run
    returns 1, yet the header and the total line are printed. *)
Lemma report_printed_without_tree :
  main (inr (commandLine false false ["missing.c"])) missingFileRun
  = Some {| stdout :=
              "=== Declarations from missing.c ===" ++ nl ++ nl
              ++ nl ++ "=== Total: 0 items ===" ++ nl;
            stderr := "error: no such file or directory: 'missing.c'" ++ nl;
            exit_status := 1 |}
  /\ ~ (forall P,
          main (inr (commandLine false false ["missing.c"])) missingFileRun
          = Some P -> stdout P = "").
Proof.
  split; [reflexivity|].
  intros H. specialize (H _ eq_refl). discriminate H.
Qed.

(** C8, amended: when the command line cannot be parsed, nothing is written
    on standard output, the error goes to the error stream and the status is
    1.  When the command line is parsed and the front-end builds no tree,
    standard output holds the header (if a source path was given) followed
    by the total line for zero records, with no record line; the
    diagnostics are on the error stream and the status is the one the tool
    run returned. *)
Theorem report_after_failed_run :
  (forall Err FE,
      main (inl Err) FE
      = Some {| stdout := ""; stderr := Err; exit_status := 1 |}) /\
  (forall OptionsParser FE,
      translationUnits FE = [] ->
      main (inr OptionsParser) FE
      = Some {| stdout := reportHeader (getSourcePathList OptionsParser)
                          ++ nl ++ "=== Total: 0 items ===" ++ nl;
                stderr := diagnostics FE;
                exit_status := Result FE |}).
Proof.
  split; [reflexivity|].
  intros OptionsParser FE H. rewrite main_parsed, printResults_spec, H.
  simpl. reflexivity.
Qed.

Lemma report_after_failed_run_witness :
  main (inr (commandLine false true ["missing.c"])) missingFileRun
  = Some {| stdout := reportHeader ["missing.c"]
                      ++ nl ++ "=== Total: 0 items ===" ++ nl;
            stderr := diagnostics missingFileRun;
            exit_status := Result missingFileRun |}.
Proof.
  apply (proj2 report_after_failed_run
           (commandLine false true ["missing.c"]) missingFileRun).
  reflexivity.
Defined.

(** ** The macro flag *)

(** C9: whatever the other arguments and whatever the front-end does, [main]
    with the macro flag set leaves exactly what it leaves with the flag
    unset; in particular standard output is the same text. *)
Theorem ShowMacros_has_no_effect
  (d : bool) (paths : list string) (FE : FrontEndRun) :
  main (inr (commandLine true d paths)) FE
  = main (inr (commandLine false d paths)) FE /\
  exists P,
    main (inr (commandLine true d paths)) FE = Some P /\
    exists Q,
      main (inr (commandLine false d paths)) FE = Some Q /\
      stdout P = stdout Q.
Proof.
  split; [reflexivity|].
  eexists. split; [apply main_parsed|].
  eexists. split; [apply main_parsed|]. reflexivity.
Qed.

(** ** Fields without a name *)

(** C10: a field whose name is empty renders as its type text, a space and a
    semicolon; when the field is eligible, that text is the signature of the
    record appended for it. *)
Theorem unnamed_field_signature (D : Decl) (FD : FieldDecl.t) :
  dyn_cast_FieldDecl D = Some FD ->
  FieldDecl.getNameAsString FD = "" ->
  getDeclarationString D
  = Some (QualType.getAsString (FieldDecl.getType FD) ++ " ;") /\
  forall SM Decls,
    shouldVisitDecl SM D = true ->
    exists info,
      addDeclaration SM D Decls = Some (Decls ++ [info])%list /\
      declaration info = QualType.getAsString (FieldDecl.getType FD) ++ " ;".
Proof.
  intros HD HN.
  assert (HS : getDeclarationString D
               = Some (QualType.getAsString (FieldDecl.getType FD) ++ " ;")).
  { destruct D as [L C]; destruct C; try discriminate HD.
    injection HD as ->. unfold getDeclarationString. simpl.
    rewrite HN. reflexivity. }
  split; [exact HS|].
  intros SM Decls HV. unfold addDeclaration. rewrite HV, HS. simpl.
  eexists. split; reflexivity.
Qed.

Lemma unnamed_field_signature_witness :
  getDeclarationString bitFieldDecl = Some "int ;" /\
  exists info,
    addDeclaration (mainBuffer ("struct flags { int : 3; };" ++ nl))
      bitFieldDecl []
    = Some [info] /\
    declaration info = "int ;".
Proof.
  destruct (unnamed_field_signature bitFieldDecl
              {| FieldDecl.getKind := KField;
                 FieldDecl.getType := ty "int";
                 FieldDecl.getNameAsString := "" |} eq_refl eq_refl)
    as [HS HA].
  split; [exact HS|].
  exact (HA (mainBuffer ("struct flags { int : 3; };" ++ nl)) [] eq_refl).
Defined.

(** The record and enum renderers, by contrast, substitute a placeholder. *)
Lemma anonymous_record_signature L K T isDef :
  getDeclarationString
    {| getLocation := L;
       getClass := IsRecord {| RecordDecl.getKind := K;
                               RecordDecl.getTagKind := T;
                               RecordDecl.getNameAsString := "";
                               RecordDecl.isThisDeclarationADefinition := isDef |} |}
  = Some (match T with
          | TTK_Struct => "struct <anonymous>;"
          | TTK_Union => "union <anonymous>;"
          | _ => "class <anonymous>;"
          end).
Proof. destruct T; reflexivity. Qed.

Lemma anonymous_enum_signature L isDef :
  getDeclarationString
    {| getLocation := L;
       getClass := IsEnum {| EnumDecl.getNameAsString := "";
                             EnumDecl.isThisDeclarationADefinition := isDef |} |}
  = Some "enum <anonymous>;".
Proof. reflexivity. Qed.

Example signature_with_parameters :
  getFunctionSignature gFunction = "int g(int a, char *)".
Proof. reflexivity. Qed.

(** A function without parameters renders the literal [void]. *)
Lemma no_parameter_signature K RT name isDef :
  getFunctionSignature
    {| FunctionDecl.getKind := K;
       FunctionDecl.getReturnType := RT;
       FunctionDecl.getNameAsString := name;
       FunctionDecl.parameters := [];
       FunctionDecl.isThisDeclarationADefinition := isDef |}
  = QualType.getAsString RT ++ " " ++ name ++ "(void)".
Proof.
  unfold getFunctionSignature. simpl.
  repeat (rewrite append_assoc; simpl). reflexivity.
Qed.

(** ** The function signature *)

Lemma appendParams_later Params :
  forall i result,
    (0 < i)%nat ->
    appendParams Params i result
    = result ++ catLines (map (fun Param => ", " ++ renderParam Param) Params).
Proof.
  induction Params as [|Param rest IH]; intros i result Hi; simpl.
  - now rewrite append_nil_r.
  - apply Nat.ltb_lt in Hi. rewrite Hi. rewrite IH by lia.
    unfold renderParam.
    destruct (ParmVarDecl.getNameAsString Param =? ""); simpl;
      repeat (rewrite append_assoc; simpl); reflexivity.
Qed.

Lemma appendParams_first Param rest result :
  appendParams (Param :: rest) 0 result
  = result ++ renderParam Param
    ++ catLines (map (fun Param => ", " ++ renderParam Param) rest).
Proof.
  simpl. rewrite appendParams_later by lia. unfold renderParam.
  destruct (ParmVarDecl.getNameAsString Param =? ""); simpl;
    repeat (rewrite append_assoc; simpl); reflexivity.
Qed.

Lemma concat_separator sep (x : string) (xs : list string) :
  String.concat sep (x :: xs) = x ++ catLines (map (fun y => sep ++ y) xs).
Proof.
  revert x. induction xs as [|y ys IH]; intros x.
  - simpl. now rewrite append_nil_r.
  - cbn [map catLines].
    change (String.concat sep (x :: y :: ys))
      with (x ++ sep ++ String.concat sep (y :: ys)).
    rewrite IH, append_assoc. reflexivity.
Qed.

(** X1: the signature of a function is its return type, a space, its name
    and the parenthesised parameter text: the literal [void] when there is no
    parameter, otherwise the parameters joined by a comma and a space, each
    rendered as its type alone when unnamed and as type, space, name when
    named. *)
Theorem signature_joins_parameters (FD : FunctionDecl.t) :
  getFunctionSignature FD
  = QualType.getAsString (FunctionDecl.getReturnType FD) ++ " "
    ++ FunctionDecl.getNameAsString FD ++ "("
    ++ match FunctionDecl.parameters FD with
       | [] => "void"
       | Params => String.concat ", " (map renderParam Params)
       end
    ++ ")".
Proof.
  unfold getFunctionSignature, FunctionDecl.getNumParams.
  destruct (FunctionDecl.parameters FD) as [|Param rest].
  - simpl. repeat (rewrite append_assoc; simpl). reflexivity.
  - cbn [List.length Nat.eqb]. rewrite appendParams_first.
    cbn [map]. rewrite concat_separator, map_map.
    repeat (rewrite append_assoc; simpl). reflexivity.
Qed.

(** ** Shape of the traversal *)

Lemma recordsOf_concat SM cs :
  recordsOf SM cs = List.concat (map (fun c => recordsOf SM [c]) cs).
Proof.
  induction cs as [|c cs IH]; [reflexivity|].
  change (c :: cs) with ([c] ++ cs)%list at 1.
  rewrite recordsOf_app, IH. reflexivity.
Qed.

Lemma recordsOf_length SM Ns :
  (List.length (recordsOf SM Ns) <= List.length (flat_map preorder Ns))%nat.
Proof. unfold recordsOf. rewrite length_map. apply filter_length_le. Qed.

(** X2: whatever the vector holds, the walk over a tree completes without
    hitting the failing cast and reports that it was not cut short; it leaves
    every record already collected in place, appends after them exactly what
    a walk from the empty vector collects, and appends at most one record
    per node of the tree. *)
Theorem traversal_only_appends
  (SM : SourceManager.t) (N : DeclNode) (Decls : list DeclInfo) :
  exists added,
    TraverseDecl SM N Decls = Some (true, (Decls ++ added)%list) /\
    collect SM N = Some added /\
    (List.length added <= List.length (preorder N))%nat.
Proof.
  exists (recordsOf SM [N]). split; [apply TraverseDecl_spec|].
  split; [apply collect_spec|].
  pose proof (recordsOf_length SM [N]) as H. simpl in H.
  now rewrite app_nil_r in H.
Qed.

(** X3: the records of a node are its own record, when the node is eligible
    and of a hooked class, followed by what the walks over its children
    collect, child after child; a node that yields no record (an included
    or unhooked one) does not hide its children. *)
Theorem traversal_descends_through_every_node
  (SM : SourceManager.t) (D : Decl) (children : list DeclNode) :
  exists per_child,
    Forall2 (fun c r => collect SM c = Some r) children per_child /\
    collect SM (Node D children)
    = Some ((if shouldVisitDecl SM D && hasVisitHook D
             then [recordOf SM D] else [])
            ++ List.concat per_child)%list.
Proof.
  exists (map (fun c => recordsOf SM [c]) children). split.
  - induction children as [|c cs IH]; simpl; constructor;
      [apply collect_spec | exact IH].
  - rewrite collect_spec, recordsOf_cons.
    replace (recordsOf SM []) with (@nil DeclInfo) by reflexivity.
    rewrite app_nil_r, <- recordsOf_concat. reflexivity.
Qed.

(** ** Runs over several translation units *)

Lemma collect_units TUs :
  Forall2 (fun Context r =>
             collect (getSourceManager Context) (getTranslationUnitDecl Context)
             = Some r)
    TUs (map recordsOfUnit TUs).
Proof.
  induction TUs as [|Context TUs IH]; simpl; constructor;
    [apply collect_spec | exact IH].
Qed.

(** X4: one vector is shared by all translation units of a tool run: the
    run collects, unit after unit in the order the front-end processed them,
    exactly what a walk over each unit alone collects.  The report lists
    them all under a single header, which names the first source path only,
    and the total line counts them all. *)
Theorem tool_run_concatenates_units
  (m d : bool) (path : string) (others : list string) (FE : FrontEndRun) :
  exists per_unit,
    Forall2 (fun Context r =>
               collect (getSourceManager Context)
                 (getTranslationUnitDecl Context) = Some r)
      (translationUnits FE) per_unit /\
    Tool_run FE [] = Some (Result FE, List.concat per_unit) /\
    main (inr (commandLine m d (path :: others))) FE
    = Some {| stdout :=
                "=== Declarations from " ++ path ++ " ===" ++ nl ++ nl
                ++ catLines (map reportLine
                               (filter (fun r => negb d || is_definition r)
                                  (List.concat per_unit)))
                ++ totalLine (List.concat per_unit);
              stderr := diagnostics FE;
              exit_status := Result FE |}.
Proof.
  exists (map recordsOfUnit (translationUnits FE)).
  split; [apply collect_units|].
  rewrite <- flat_map_concat_map. split.
  - unfold Tool_run. rewrite runConsumers_spec. reflexivity.
  - rewrite main_parsed, printResults_spec. unfold reportHeader.
    cbn [commandLine getSourcePathList DefinitionsOnly List.length
         Nat.ltb Nat.leb nth].
    repeat (rewrite append_assoc; simpl). reflexivity.
Qed.

(** ** What the definitions-only report keeps *)

Lemma filter_of_map {A B : Type} (f : B -> bool) (g : A -> B) (l : list A) :
  filter f (map g l) = map g (filter (fun a => f (g a)) l).
Proof.
  induction l as [|a l IH]; simpl; [reflexivity|].
  rewrite IH. destruct (f (g a)); reflexivity.
Qed.

Lemma filter_of_filter {A : Type} (p q : A -> bool) (l : list A) :
  filter p (filter q l) = filter (fun a => q a && p a) l.
Proof.
  induction l as [|a l IH]; simpl; [reflexivity|].
  destruct (q a); simpl; rewrite IH; reflexivity.
Qed.

Lemma filter_of_flat_map {A B : Type} (p : B -> bool) (f : A -> list B)
  (l : list A) :
  filter p (flat_map f l) = flat_map (fun a => filter p (f a)) l.
Proof.
  induction l as [|a l IH]; simpl; [reflexivity|].
  now rewrite filter_app, IH.
Qed.

Lemma definitions_of_unit SM N :
  filter is_definition (recordsOf SM [N])
  = map (recordOf SM)
      (filter (fun D => recorded SM D && isDefinition D) (preorder N)).
Proof.
  unfold recordsOf. simpl. rewrite app_nil_r.
  rewrite filter_of_map, filter_of_filter. reflexivity.
Qed.

(** X5: with the definitions-only flag the report lists, unit by unit and in
    pre-order, exactly the eligible hooked nodes on which [isDefinition] is
    true, while the total still counts every record; a node on which
    [isDefinition] is true is a function, a record or an enum, so no
    variable, typedef, field or enumerator is ever listed under the flag. *)
Theorem definitions_only_lists_defining_occurrences
  (m : bool) (paths : list string) (FE : FrontEndRun) :
  main (inr (commandLine m true paths)) FE
  = Some {| stdout :=
              reportHeader paths
              ++ catLines
                   (map reportLine
                      (flat_map
                         (fun Context =>
                            map (recordOf (getSourceManager Context))
                              (filter
                                 (fun D =>
                                    recorded (getSourceManager Context) D
                                    && isDefinition D)
                                 (preorder (getTranslationUnitDecl Context))))
                         (translationUnits FE)))
              ++ totalLine (flat_map recordsOfUnit (translationUnits FE));
            stderr := diagnostics FE;
            exit_status := Result FE |}
  /\ forall D, isDefinition D = true -> isFunctionRecordOrEnum D = true.
Proof.
  split.
  - rewrite main_parsed, printResults_spec. simpl.
    rewrite filter_of_flat_map. do 6 f_equal.
    apply flat_map_ext. intros Context. apply definitions_of_unit.
  - intros D. by_class D; unfold isDefinition, isFunctionRecordOrEnum; simpl;
      intros H; try reflexivity; discriminate H.
Qed.

(** ** Records and enums without a name *)

(** X6: a record without a name is rendered with the placeholder
    [<anonymous>] after its keyword, [struct] for a struct, [union] for a
    union and [class] for every other tag kind (an interface too); an enum
    without a name is rendered as [enum <anonymous>;]. *)
Theorem anonymous_tag_signature
  (L : SourceLocation.t) (K : RecordKind) (T : TagTypeKind) (isDef : bool) :
  getDeclarationString
    {| getLocation := L;
       getClass := IsRecord {| RecordDecl.getKind := K;
                               RecordDecl.getTagKind := T;
                               RecordDecl.getNameAsString := "";
                               RecordDecl.isThisDeclarationADefinition := isDef |} |}
  = Some (recordKeyword T ++ "<anonymous>;") /\
  getDeclarationString
    {| getLocation := L;
       getClass := IsEnum {| EnumDecl.getNameAsString := "";
                             EnumDecl.isThisDeclarationADefinition := isDef |} |}
  = Some "enum <anonymous>;".
Proof. split; [destruct T; reflexivity | reflexivity]. Qed.

(** ** Lines of the report *)

Lemma countNewlines_app a b :
  countNewlines (a ++ b) = (countNewlines a + countNewlines b)%nat.
Proof.
  induction a as [|c a IH]; simpl; [reflexivity|]. rewrite IH. lia.
Qed.

Lemma countNewlines_uint d : countNewlines (NilEmpty.string_of_uint d) = 0%nat.
Proof. induction d; simpl; assumption || reflexivity. Qed.

Lemma countNewlines_reportLine decl :
  countNewlines (reportLine decl) = S (countNewlines (declaration decl)).
Proof.
  unfold reportLine, to_string. rewrite !countNewlines_app, !countNewlines_uint.
  destruct (is_definition decl); simpl; lia.
Qed.

Lemma countNewlines_lines Decls :
  Forall (fun r => countNewlines (declaration r) = 0%nat) Decls ->
  countNewlines (catLines (map reportLine Decls)) = List.length Decls.
Proof.
  induction 1 as [|r Decls Hr _ IH]; simpl; [reflexivity|].
  rewrite countNewlines_app, countNewlines_reportLine, Hr, IH. reflexivity.
Qed.

(** X7: when neither the first source path nor any signature contains a line
    end, the report holds exactly one line per printed record, between the
    two lines of the header (present when a source path was given) and the
    two lines of the total. *)
Theorem report_has_one_line_per_record
  (OptionsParser : CommonOptionsParser) (Decls : list DeclInfo) :
  countNewlines (nth 0 (getSourcePathList OptionsParser) "") = 0%nat ->
  Forall (fun r => countNewlines (declaration r) = 0%nat) Decls ->
  countNewlines (printResults OptionsParser Decls)
  = ((match getSourcePathList OptionsParser with [] => 0 | _ => 2 end)
     + List.length (filter (fun r => negb (DefinitionsOnly OptionsParser)
                                     || is_definition r) Decls)
     + 2)%nat.
Proof.
  intros Hpath Hsig. rewrite printResults_spec, !countNewlines_app.
  rewrite countNewlines_lines.
  2:{ rewrite Forall_forall in *. intros r Hr. apply filter_In in Hr.
      apply Hsig, Hr. }
  assert (Htotal : countNewlines (totalLine Decls) = 2%nat).
  { unfold totalLine, to_string.
    rewrite !countNewlines_app, countNewlines_uint. reflexivity. }
  assert (Hheader :
            countNewlines (reportHeader (getSourcePathList OptionsParser))
            = match getSourcePathList OptionsParser with [] => 0 | _ => 2 end).
  { unfold reportHeader. destruct (getSourcePathList OptionsParser) as [|p ps].
    - reflexivity.
    - cbn [List.length Nat.ltb Nat.leb nth] in *.
      rewrite !countNewlines_app, Hpath. reflexivity. }
  rewrite Htotal, Hheader. lia.
Qed.

Lemma report_has_one_line_per_record_witness :
  countNewlines
    (printResults (commandLine false false ["t.c"])
       (recordsOfUnit scenarioContext))
  = (2 + 7 + 2)%nat.
Proof.
  apply (report_has_one_line_per_record (commandLine false false ["t.c"])
           (recordsOfUnit scenarioContext)).
  - reflexivity.
  - vm_compute. repeat constructor.
Defined.

(** ** Variables, parameters and enumerators *)

Example parameters_are_recorded :
  option_map (map signatureAndStatus) (collect (mainBuffer addText) addTree)
  = Some [ ("int add(int a, int b);", false); ("int a;", false); ("int b;", false) ].
Proof. reflexivity. Qed.

(** X8: an eligible variable node of any class derived from [VarDecl] (a
    global, a local, a parameter) makes the walk append exactly one record:
    its kind is the dynamic kind of the node, its signature is the type
    text, a space, the name and a semicolon, its position is the spelling
    line and column of the node, and it is marked a declaration, never a
    definition. *)
Theorem variable_is_recorded_as_declaration
  (SM : SourceManager.t) (D : Decl) (VD : VarDecl.t) (Decls : list DeclInfo) :
  dyn_cast_VarDecl D = Some VD ->
  shouldVisitDecl SM D = true ->
  WalkUpFrom SM D Decls
  = Some (true,
          (Decls ++
           [ {| kind := VarKindName (VarDecl.getKind VD);
                declaration := QualType.getAsString (VarDecl.getType VD) ++ " "
                               ++ VarDecl.getNameAsString VD ++ ";";
                is_definition := false;
                line := SourceManager.getSpellingLineNumber SM (getLocation D);
                column := SourceManager.getSpellingColumnNumber SM (getLocation D)
             |} ])%list).
Proof.
  intros HD HS. by_class D; try discriminate HD. injection HD as ->.
  unfold WalkUpFrom, VisitVarDecl, addDeclaration. simpl getClass. cbv iota.
  rewrite HS. reflexivity.
Qed.

Lemma variable_is_recorded_as_declaration_witness :
  WalkUpFrom (mainBuffer addText) (parmDecl 13 "int" "a") []
  = Some (true,
          [ {| kind := "ParmVar"; declaration := "int a;";
               is_definition := false; line := 1; column := 13 |} ]).
Proof.
  apply (variable_is_recorded_as_declaration (mainBuffer addText)
           (parmDecl 13 "int" "a")
           {| VarDecl.getKind := KParmVar; VarDecl.getType := ty "int";
              VarDecl.getNameAsString := "a" |} []);
    reflexivity.
Defined.

(** X9: an eligible enumerator makes the walk append exactly one record,
    marked a declaration, whose signature is the bare name, followed by the
    fixed text [ = <value>] when the enumerator has an initialiser; the
    initialiser itself never shows in the record. *)
Theorem enumerator_record_hides_initializer
  (SM : SourceManager.t) (L : SourceLocation.t) (name : string)
  (init : option Expr) (Decls : list DeclInfo) :
  shouldVisitDecl SM
    {| getLocation := L;
       getClass := IsEnumConstant {| EnumConstantDecl.getNameAsString := name;
                                     EnumConstantDecl.getInitExpr := init |} |}
  = true ->
  WalkUpFrom SM
    {| getLocation := L;
       getClass := IsEnumConstant {| EnumConstantDecl.getNameAsString := name;
                                     EnumConstantDecl.getInitExpr := init |} |}
    Decls
  = Some (true,
          (Decls ++
           [ {| kind := "EnumConstant";
                declaration := match init with
                               | Some _ => name ++ " = <value>"
                               | None => name
                               end;
                is_definition := false;
                line := SourceManager.getSpellingLineNumber SM L;
                column := SourceManager.getSpellingColumnNumber SM L |} ])%list).
Proof.
  intros HS.
  unfold WalkUpFrom, VisitEnumConstantDecl, addDeclaration.
  simpl getClass. cbv iota. rewrite HS. destruct init; reflexivity.
Qed.

Lemma enumerator_record_hides_initializer_witness :
  WalkUpFrom (mainBuffer colorText) REDDecl []
  = Some (true,
          [ {| kind := "EnumConstant"; declaration := "RED = <value>";
               is_definition := false; line := 1; column := 14 |} ]).
Proof.
  apply (enumerator_record_hides_initializer (mainBuffer colorText)
           (at_ 14) "RED" (Some "1") []).
  reflexivity.
Defined.

(** * The macro observer *)

(** ** The text of a macro definition *)

Lemma appendTokens_spec tokens :
  forall i numTokens result,
    (i + List.length tokens = numTokens)%nat ->
    MacroObserver.appendTokens tokens i numTokens result
    = result ++ String.concat " " tokens.
Proof.
  induction tokens as [|token rest IH]; intros i numTokens result Hn.
  - simpl. now rewrite append_nil_r.
  - cbn [MacroObserver.appendTokens]. simpl List.length in Hn.
    rewrite IH by lia. destruct rest as [|token' rest'].
    + simpl List.length in Hn.
      replace (i <? numTokens - 1)%nat with false
        by (symmetry; apply Nat.ltb_ge; lia).
      simpl. now rewrite append_nil_r.
    + simpl List.length in Hn.
      replace (i <? numTokens - 1)%nat with true
        by (symmetry; apply Nat.ltb_lt; lia).
      change (String.concat " " (token :: token' :: rest'))
        with (token ++ " " ++ String.concat " " (token' :: rest')).
      now rewrite !append_assoc.
Qed.

(** X10: the text of a range is the spellings of its tokens joined by single
    spaces, with no space before the first or after the last token, and the
    empty text when the range has no token. *)
Theorem getSourceText_joins_tokens (tokens : list string) :
  MacroObserver.getSourceText tokens = String.concat " " tokens.
Proof.
  unfold MacroObserver.getSourceText.
  now rewrite appendTokens_spec by reflexivity.
Qed.

(** ** The command line *)

Lemma scanArguments_app prog pre :
  forall post a,
    MacroObserver.scanArguments prog (pre ++ post) a
    = match MacroObserver.scanArguments prog pre a with
      | inl early => inl early
      | inr a' => MacroObserver.scanArguments prog post a'
      end.
Proof.
  induction pre as [|arg pre IH]; intros post a; [reflexivity|].
  cbn [app MacroObserver.scanArguments].
  destruct (MacroObserver.in_clang_args a); [apply IH|].
  destruct (arg =? "--"); [apply IH|].
  destruct ((arg =? "-v") || (arg =? "--verbose")); [apply IH|].
  destruct ((arg =? "-h") || (arg =? "--help")); [reflexivity|].
  destruct (MacroObserver.filename a); [reflexivity | apply IH].
Qed.

Lemma scanArguments_passthrough prog argv :
  forall a,
    MacroObserver.in_clang_args a = true ->
    MacroObserver.scanArguments prog argv a
    = inr {| MacroObserver.filename := MacroObserver.filename a;
             MacroObserver.arg_verbose := MacroObserver.arg_verbose a;
             MacroObserver.clang_args := (MacroObserver.clang_args a ++ argv)%list;
             MacroObserver.in_clang_args := true |}.
Proof.
  induction argv as [|arg argv IH]; intros a Ha.
  - simpl. rewrite app_nil_r, <- Ha. destruct a; reflexivity.
  - cbn [MacroObserver.scanArguments]. rewrite Ha, IH by reflexivity.
    simpl. now rewrite <- app_assoc.
Qed.

Lemma scanArguments_before_separator prog argv :
  forall a a',
    MacroObserver.scanArguments prog argv a = inr a' ->
    MacroObserver.in_clang_args a' = false ->
    MacroObserver.in_clang_args a = false /\
    MacroObserver.clang_args a' = MacroObserver.clang_args a.
Proof.
  induction argv as [|arg argv IH]; intros a a' Hs Ha'.
  - injection Hs as <-. split; [exact Ha' | reflexivity].
  - cbn [MacroObserver.scanArguments] in Hs.
    destruct (MacroObserver.in_clang_args a) eqn:Ha.
    + rewrite scanArguments_passthrough in Hs by reflexivity.
      injection Hs as <-. discriminate Ha'.
    + split; [reflexivity|].
      destruct (arg =? "--").
      { rewrite scanArguments_passthrough in Hs by reflexivity.
        injection Hs as <-. discriminate Ha'. }
      destruct ((arg =? "-v") || (arg =? "--verbose")).
      { apply (IH _ _ Hs Ha'). }
      destruct ((arg =? "-h") || (arg =? "--help")); [discriminate Hs|].
      destruct (MacroObserver.filename a); [discriminate Hs|].
      apply (IH _ _ Hs Ha').
Qed.

(** X11: once the arguments before the first [--] have been scanned without
    an early return, everything after that [--] goes to the front-end as it
    is, options of the tool and further [--] included, after the three
    default arguments; nothing before the [--] reaches the front-end.  The
    run still ends early, with status 1, when no file name came before the
    [--]. *)
Theorem arguments_after_separator_reach_front_end
  (prog : string) (pre post : list string) (a : MacroObserver.Arguments) :
  MacroObserver.scanArguments prog pre MacroObserver.noArguments = inr a ->
  MacroObserver.in_clang_args a = false ->
  MacroObserver.parseCommandLine prog (pre ++ "--" :: post)
  = match MacroObserver.filename a with
    | Some filename =>
        inr (filename, MacroObserver.arg_verbose a,
             (MacroObserver.defaultArguments ++ post)%list)
    | None =>
        inl (1%Z, "Error: No input file specified" ++ nl
                  ++ MacroObserver.printUsage prog)
    end.
Proof.
  intros Hs Ha. unfold MacroObserver.parseCommandLine.
  replace (S (List.length (pre ++ "--" :: post)) <? 2)%nat with false
    by (symmetry; apply Nat.ltb_ge; rewrite length_app; simpl; lia).
  rewrite scanArguments_app, Hs.
  cbn [MacroObserver.scanArguments]. rewrite Ha.
  change ("--" =? "--") with true. cbv iota.
  rewrite scanArguments_passthrough by reflexivity.
  destruct (scanArguments_before_separator _ _ _ _ Hs Ha) as [_ Hc].
  cbn [MacroObserver.filename MacroObserver.arg_verbose MacroObserver.clang_args].
  rewrite Hc. reflexivity.
Qed.

Lemma arguments_after_separator_reach_front_end_witness :
  MacroObserver.parseCommandLine "macro-obs"
    (["-v"; "a.c"] ++ "--" :: ["-I."; "-v"; "--"; "-h"])
  = inr ("a.c", true,
         ["-fsyntax-only"; "-ferror-limit=0"; "-Wno-everything";
          "-I."; "-v"; "--"; "-h"]).
Proof.
  apply (arguments_after_separator_reach_front_end "macro-obs"
           ["-v"; "a.c"] ["-I."; "-v"; "--"; "-h"]
           {| MacroObserver.filename := Some "a.c";
              MacroObserver.arg_verbose := true;
              MacroObserver.clang_args := [];
              MacroObserver.in_clang_args := false |});
    reflexivity.
Defined.

Lemma isHelp_tests arg :
  MacroObserver.isHelp arg = true ->
  (arg =? "--") = false /\ ((arg =? "-v") || (arg =? "--verbose")) = false.
Proof.
  unfold MacroObserver.isHelp. intros H. apply orb_true_iff in H.
  destruct H as [H|H]; apply String.eqb_eq in H; subst; split; reflexivity.
Qed.

(** X12: a help option met before any [--], after arguments that caused no
    early return, ends the run at once with status 0: the usage text is all
    that is written, nothing is parsed, and whatever follows the option is
    not even looked at. *)
Theorem help_option_ends_the_run
  (E : MacroObserver.Environment) (prog h : string) (pre post : list string)
  (a : MacroObserver.Arguments) :
  MacroObserver.scanArguments prog pre MacroObserver.noArguments = inr a ->
  MacroObserver.in_clang_args a = false ->
  MacroObserver.isHelp h = true ->
  MacroObserver.main E prog (pre ++ h :: post)
  = {| stdout := ""; stderr := MacroObserver.printUsage prog;
       exit_status := 0 |}.
Proof.
  intros Hs Ha Hh. unfold MacroObserver.main, MacroObserver.parseCommandLine.
  replace (S (List.length (pre ++ h :: post)) <? 2)%nat with false
    by (symmetry; apply Nat.ltb_ge; rewrite length_app; simpl; lia).
  rewrite scanArguments_app, Hs.
  cbn [MacroObserver.scanArguments]. rewrite Ha.
  destruct (isHelp_tests h Hh) as [-> ->].
  unfold MacroObserver.isHelp in Hh. rewrite Hh. reflexivity.
Qed.

Lemma help_option_ends_the_run_witness :
  MacroObserver.main
    {| MacroObserver.clang_parseTranslationUnit := fun _ _ => None;
       MacroObserver.readFile := fun _ => None |}
    "macro-obs" (["a.c"; "-v"] ++ "--help" :: ["b.c"; "c.c"])
  = {| stdout := ""; stderr := MacroObserver.printUsage "macro-obs";
       exit_status := 0 |}.
Proof.
  apply (help_option_ends_the_run _ "macro-obs" "--help" ["a.c"; "-v"]
           ["b.c"; "c.c"]
           {| MacroObserver.filename := Some "a.c";
              MacroObserver.arg_verbose := true;
              MacroObserver.clang_args := [];
              MacroObserver.in_clang_args := false |});
    reflexivity.
Defined.

(** ** The visit of the cursor tree *)

Lemma catLines_app l1 l2 : catLines (l1 ++ l2) = catLines l1 ++ catLines l2.
Proof.
  induction l1 as [|x l1 IH]; simpl; [reflexivity|].
  now rewrite IH, append_assoc.
Qed.

Lemma visitedFrom_refl data : visitedFrom data data [].
Proof.
  unfold visitedFrom. simpl. rewrite app_nil_r, append_nil_r. tauto.
Qed.

Lemma visitedFrom_trans data1 data2 data3 seen1 seen2 :
  visitedFrom data1 data2 seen1 -> visitedFrom data2 data3 seen2 ->
  visitedFrom data1 data3 (seen1 ++ seen2).
Proof.
  unfold visitedFrom. intros (Hf1 & Hv1 & Hm1 & Hc1) (Hf2 & Hv2 & Hm2 & Hc2).
  rewrite filter_app, !map_app.
  repeat split; try congruence.
  - rewrite Hm2, Hm1, app_assoc. reflexivity.
  - intros Hv. rewrite Hc2 by congruence. rewrite Hc1 by assumption.
    rewrite catLines_app, append_assoc. reflexivity.
Qed.

Lemma visitor_spec cursor parent data :
  exists data',
    MacroObserver.visitor cursor parent data
    = ((if MacroObserver.inMainFile (MacroObserver.main_filename data) cursor
        then MacroObserver.CXChildVisit_Recurse
        else MacroObserver.CXChildVisit_Continue), data') /\
    visitedFrom data data'
      (if MacroObserver.inMainFile (MacroObserver.main_filename data) cursor
       then [cursor] else []).
Proof.
  unfold MacroObserver.visitor, MacroObserver.inMainFile.
  destruct (MacroObserver.isInSystemHeader
              (MacroObserver.getCursorLocation cursor)); simpl.
  { eexists. split; [reflexivity | apply visitedFrom_refl]. }
  destruct (MacroObserver.getFile (MacroObserver.getCursorLocation cursor))
    as [filename|] eqn:Hfile;
    [|eexists; split; [reflexivity | apply visitedFrom_refl]].
  destruct (filename =? MacroObserver.main_filename data); simpl;
    [|eexists; split; [reflexivity | apply visitedFrom_refl]].
  eexists. split; [reflexivity|].
  unfold visitedFrom, MacroObserver.isMacroDefinition,
    MacroObserver.write, MacroObserver.push_back.
  destruct (MacroObserver.getCursorKind cursor) eqn:Hk; cbn;
    destruct (MacroObserver.isMacroFunctionLike cursor) eqn:Hfl;
    destruct (MacroObserver.verbose data) eqn:Hv; cbn;
    rewrite ?Hv, ?Hk; cbn;
    repeat split;
    unfold MacroObserver.defineLine, MacroObserver.macroInfoOf; cbn;
    rewrite ?Hfl; try reflexivity; try (now rewrite app_nil_r);
    intros Hv'; try discriminate Hv'; cbn;
    repeat (rewrite append_assoc; cbn);
    rewrite ?append_nil_r; reflexivity.
Qed.

Lemma visitChild_Node parent cursor children data :
  MacroObserver.visitChild MacroObserver.VisitorData MacroObserver.visitor
    parent (MacroObserver.CNode cursor children) data
  = match MacroObserver.visitor cursor parent data with
    | (MacroObserver.CXChildVisit_Break, data) => (true, data)
    | (MacroObserver.CXChildVisit_Continue, data) => (false, data)
    | (MacroObserver.CXChildVisit_Recurse, data) =>
        MacroObserver.visitAll MacroObserver.VisitorData MacroObserver.visitor
          cursor children data
    end.
Proof. reflexivity. Qed.

Lemma visitAll_spec cs :
  Forall (fun N => forall parent data,
            exists data',
              MacroObserver.visitChild MacroObserver.VisitorData
                MacroObserver.visitor parent N data = (false, data') /\
              visitedFrom data data'
                (MacroObserver.examined (MacroObserver.main_filename data) N))
    cs ->
  forall parent data,
    exists data',
      MacroObserver.visitAll MacroObserver.VisitorData MacroObserver.visitor
        parent cs data = (false, data') /\
      visitedFrom data data'
        (flat_map (MacroObserver.examined (MacroObserver.main_filename data)) cs).
Proof.
  induction 1 as [|c cs Hc _ IH]; intros parent data.
  - exists data. split; [reflexivity | apply visitedFrom_refl].
  - destruct (Hc parent data) as (data1 & E1 & V1).
    destruct (IH parent data1) as (data2 & E2 & V2).
    exists data2. split.
    + cbn [MacroObserver.visitAll]. rewrite E1. exact E2.
    + cbn [flat_map]. eapply visitedFrom_trans; [exact V1|].
      destruct V1 as (Hf & _). rewrite <- Hf. exact V2.
Qed.

Lemma visitChild_spec N :
  forall parent data,
    exists data',
      MacroObserver.visitChild MacroObserver.VisitorData MacroObserver.visitor
        parent N data = (false, data') /\
      visitedFrom data data'
        (MacroObserver.examined (MacroObserver.main_filename data) N).
Proof.
  induction N as [cursor children IH] using CursorNode_forall_ind.
  intros parent data. rewrite visitChild_Node.
  destruct (visitor_spec cursor parent data) as (data1 & E1 & V1).
  rewrite E1. cbn [MacroObserver.examined].
  destruct (MacroObserver.inMainFile (MacroObserver.main_filename data) cursor).
  - destruct (visitAll_spec children IH cursor data1) as (data2 & E2 & V2).
    exists data2. split; [exact E2|].
    change (cursor :: ?l) with ([cursor] ++ l)%list.
    eapply visitedFrom_trans; [exact V1|].
    destruct V1 as (Hf & _). rewrite <- Hf. exact V2.
  - exists data1. split; [reflexivity | exact V1].
Qed.

Lemma visitAll_examined parent children data :
  exists data',
    MacroObserver.visitAll MacroObserver.VisitorData MacroObserver.visitor
      parent children data = (false, data') /\
    visitedFrom data data'
      (flat_map (MacroObserver.examined (MacroObserver.main_filename data))
         children).
Proof.
  apply visitAll_spec. apply Forall_forall. intros N _. apply visitChild_spec.
Qed.

(** X13: the visit of a translation unit is never broken off.  It appends
    to the macro list, in order of visit, exactly the macro definitions among
    the cursors that are outside system headers and located in a file whose
    name is the main file name, and that sit below such cursors only: a
    cursor failing these tests is passed over with everything below it.
    When not verbose it writes one line per appended macro and nothing
    else. *)
Theorem visit_collects_main_file_macros
  (root : MacroObserver.CursorNode) (data : MacroObserver.VisitorData) :
  exists data',
    MacroObserver.clang_visitChildren MacroObserver.VisitorData
      MacroObserver.visitor root data = (false, data') /\
    MacroObserver.macros data'
    = (MacroObserver.macros data
       ++ map MacroObserver.macroInfoOf
            (filter MacroObserver.isMacroDefinition
               (flat_map (MacroObserver.examined
                            (MacroObserver.main_filename data))
                  (cursorChildren root))))%list /\
    (MacroObserver.verbose data = false ->
     MacroObserver.cerr data'
     = MacroObserver.cerr data
       ++ catLines
            (map MacroObserver.defineLine
               (map MacroObserver.macroInfoOf
                  (filter MacroObserver.isMacroDefinition
                     (flat_map (MacroObserver.examined
                                  (MacroObserver.main_filename data))
                        (cursorChildren root)))))).
Proof.
  destruct root as [cursor children].
  destruct (visitAll_examined cursor children data) as (data' & E & V).
  exists data'. split; [exact E|].
  destruct V as (_ & _ & Hm & Hc). split; assumption.
Qed.

(** ** Whole runs of the macro observer *)

(** X14: a run that is not verbose, whose file the front-end parses and
    whose source can be read, copies the source unchanged to standard
    output, ends with status 0, and writes on the error stream the analysis
    header, one [#define] line per macro definition of the main file (marked
    when function-like), and a total line with their number. *)
Theorem quiet_run_reports_each_macro
  (E : MacroObserver.Environment) (prog : string) (argv : list string)
  (filename : string) (all_args : list string)
  (tu : MacroObserver.CXTranslationUnit) (contents : string) :
  MacroObserver.parseCommandLine prog argv = inr (filename, false, all_args) ->
  MacroObserver.clang_parseTranslationUnit E filename all_args = Some tu ->
  MacroObserver.readFile E filename = Some contents ->
  MacroObserver.main E prog argv
  = {| stdout := contents;
       stderr :=
         ("=== Macro Analysis: " ++ filename ++ " ===" ++ nl)
         ++ catLines
              (map MacroObserver.defineLine
                 (map MacroObserver.macroInfoOf
                    (filter MacroObserver.isMacroDefinition
                       (flat_map (MacroObserver.examined
                                    (MacroObserver.mainFileName tu))
                          (cursorChildren
                             (MacroObserver.getTranslationUnitCursor tu))))))
         ++ (nl ++ "=== Total: "
             ++ to_string
                  (List.length
                     (filter MacroObserver.isMacroDefinition
                        (flat_map (MacroObserver.examined
                                     (MacroObserver.mainFileName tu))
                           (cursorChildren
                              (MacroObserver.getTranslationUnitCursor tu)))))
             ++ " macro definitions ===" ++ nl);
       exit_status := 0 |}.
Proof.
  intros Hparse Htu Hread. unfold MacroObserver.main.
  rewrite Hparse, Htu.
  destruct (MacroObserver.getTranslationUnitCursor tu) as [cursor children].
  destruct (visitAll_examined cursor children
              {| MacroObserver.main_filename := MacroObserver.mainFileName tu;
                 MacroObserver.macros := [];
                 MacroObserver.verbose := false;
                 MacroObserver.cerr :=
                   "=== Macro Analysis: " ++ filename ++ " ===" ++ nl |})
    as (data' & Hvisit & _ & _ & Hmacros & Hcerr).
  unfold MacroObserver.clang_visitChildren.
  rewrite Hvisit, Hread. cbn [MacroObserver.write MacroObserver.cerr
                              MacroObserver.macros].
  rewrite Hmacros, (Hcerr eq_refl). cbn [MacroObserver.macros
                                         MacroObserver.cerr
                                         MacroObserver.main_filename app].
  rewrite !length_map, !append_assoc. reflexivity.
Qed.

Lemma quiet_run_reports_each_macro_witness :
  MacroObserver.main macroEnvironment "macro-obs" ["m.c"]
  = {| stdout := macroSource;
       stderr :=
         "=== Macro Analysis: m.c ===" ++ nl
         ++ "m.c:2:9: #define SIZE" ++ nl
         ++ "m.c:3:9: #define SQR(...) [function-like]" ++ nl
         ++ nl ++ "=== Total: 2 macro definitions ===" ++ nl;
       exit_status := 0 |}.
Proof.
  rewrite (quiet_run_reports_each_macro macroEnvironment "macro-obs" ["m.c"]
             "m.c" MacroObserver.defaultArguments macroUnit macroSource);
    reflexivity.
Defined.




(** X17: before any [--], an argument the loop does not know is taken as
    the file name when none was given yet, whatever it looks like, and the
    scan goes on; when a file name was already given it ends the run with
    status 1, naming the argument before the usage text, and nothing is
    parsed or copied. *)
Theorem unknown_argument_is_file_name_once
  (E : MacroObserver.Environment) (prog arg : string) (pre post : list string)
  (a : MacroObserver.Arguments) :
  MacroObserver.scanArguments prog pre MacroObserver.noArguments = inr a ->
  MacroObserver.in_clang_args a = false ->
  recognisedOption arg = false ->
  (MacroObserver.filename a = None ->
   MacroObserver.scanArguments prog (pre ++ arg :: post)
     MacroObserver.noArguments
   = MacroObserver.scanArguments prog post
       {| MacroObserver.filename := Some arg;
          MacroObserver.arg_verbose := MacroObserver.arg_verbose a;
          MacroObserver.clang_args := MacroObserver.clang_args a;
          MacroObserver.in_clang_args := false |}) /\
  (MacroObserver.filename a <> None ->
   MacroObserver.main E prog (pre ++ arg :: post)
   = {| stdout := "";
        stderr := "Error: Unknown argument: " ++ arg ++ nl
                  ++ MacroObserver.printUsage prog;
        exit_status := 1 |}).
Proof.
  intros Hs Ha Hr. unfold recognisedOption, MacroObserver.isHelp in Hr.
  apply orb_false_iff in Hr. destruct Hr as [Hr Hh].
  apply orb_false_iff in Hr. destruct Hr as [Hsep Hv].
  assert (Hscan :
            MacroObserver.scanArguments prog (pre ++ arg :: post)
              MacroObserver.noArguments
            = match MacroObserver.filename a with
              | None =>
                  MacroObserver.scanArguments prog post
                    {| MacroObserver.filename := Some arg;
                       MacroObserver.arg_verbose := MacroObserver.arg_verbose a;
                       MacroObserver.clang_args := MacroObserver.clang_args a;
                       MacroObserver.in_clang_args :=
                         MacroObserver.in_clang_args a |}
              | Some _ =>
                  inl (1%Z, "Error: Unknown argument: " ++ arg ++ nl
                            ++ MacroObserver.printUsage prog)
              end).
  { rewrite scanArguments_app, Hs. cbn [MacroObserver.scanArguments].
    rewrite Ha, Hsep, Hv, Hh. reflexivity. }
  split.
  - intros Hf. rewrite Hscan, Hf, Ha. reflexivity.
  - intros Hf. unfold MacroObserver.main, MacroObserver.parseCommandLine.
    replace (S (List.length (pre ++ arg :: post)) <? 2)%nat with false
      by (symmetry; apply Nat.ltb_ge; rewrite length_app; simpl; lia).
    rewrite Hscan. destruct (MacroObserver.filename a); [reflexivity|].
    now elim Hf.
Qed.

Lemma unknown_argument_is_file_name_once_witness :
  MacroObserver.main macroEnvironment "macro-obs" (["m.c"] ++ "-x" :: ["-v"])
  = {| stdout := "";
       stderr := "Error: Unknown argument: " ++ "-x" ++ nl
                 ++ MacroObserver.printUsage "macro-obs";
       exit_status := 1 |}.
Proof.
  apply (proj2 (unknown_argument_is_file_name_once macroEnvironment
                  "macro-obs" "-x" ["m.c"] ["-v"]
                  {| MacroObserver.filename := Some "m.c";
                     MacroObserver.arg_verbose := false;
                     MacroObserver.clang_args := [];
                     MacroObserver.in_clang_args := false |}
                  eq_refl eq_refl eq_refl)).
  discriminate.
Defined.

(** * Path rewriting in the syntax-check wrapper *)

Lemma prefix_split str :
  forall line, prefix str line = true -> exists rest, line = str ++ rest.
Proof.
  induction str as [|c str IH]; intros line H.
  - exists line. reflexivity.
  - destruct line as [|d line]; simpl in H; [discriminate H|].
    destruct (ascii_dec c d) as [->|]; [|discriminate H].
    destruct (IH line H) as [rest ->]. exists rest. reflexivity.
Qed.

Lemma prefix_append str rest : prefix str (str ++ rest) = true.
Proof.
  induction str as [|c str IH]; simpl; [destruct rest; reflexivity|].
  destruct (ascii_dec c c) as [_|n]; [exact IH | now elim n].
Qed.

Lemma find_none str :
  forall text,
    ViPerl.find text str = None ->
    forall pre post, text <> pre ++ str ++ post.
Proof.
  induction text as [|c text IH]; intros H pre post E.
  - cbn [ViPerl.find] in H.
    destruct pre; [|discriminate E]. simpl in E.
    destruct str; [|simpl in E; discriminate E]. discriminate H.
  - cbn [ViPerl.find] in H.
    destruct (prefix str (String c text)) eqn:Hp; [discriminate H|].
    destruct pre as [|d pre].
    + simpl in E. rewrite E, prefix_append in Hp. discriminate Hp.
    + simpl in E. injection E as _ E.
      destruct (ViPerl.find text str) eqn:Hf; [discriminate H|].
      exact (IH eq_refl pre post E).
Qed.

Lemma find_some str :
  forall text n,
    ViPerl.find text str = Some n ->
    exists pre post,
      text = pre ++ str ++ post /\ String.length pre = n /\
      forall pre' post',
        text = pre' ++ str ++ post' -> (n <= String.length pre')%nat.
Proof.
  induction text as [|c text IH]; intros n H; cbn [ViPerl.find] in H.
  - destruct (prefix str "") eqn:Hp; [|discriminate H].
    injection H as <-. destruct (prefix_split _ _ Hp) as [rest E].
    exists "", rest. repeat split; [exact E | intros; lia].
  - destruct (prefix str (String c text)) eqn:Hp.
    + injection H as <-. destruct (prefix_split _ _ Hp) as [rest E].
      exists "", rest. repeat split; [exact E | intros; lia].
    + destruct (ViPerl.find text str) as [m|] eqn:Hf; [|discriminate H].
      injection H as <-.
      destruct (IH m eq_refl) as (pre & post & E & Hl & Hmin).
      exists (String c pre), post. repeat split.
      * simpl. now rewrite <- E.
      * simpl. now rewrite Hl.
      * intros pre' post' E'. destruct pre' as [|d pre'].
        { simpl in E'. rewrite E', prefix_append in Hp. discriminate Hp. }
        simpl in E'. injection E' as _ E'. simpl.
        apply le_n_S. exact (Hmin pre' post' E').
Qed.

Lemma length_append a b :
  String.length (a ++ b) = (String.length a + String.length b)%nat.
Proof. induction a as [|c a IH]; simpl; [reflexivity | now rewrite IH]. Qed.

Lemma substring_whole a : substring 0 (String.length a) a = a.
Proof. induction a as [|c a IH]; simpl; [reflexivity | now rewrite IH]. Qed.

Lemma substring_head a b : substring 0 (String.length a) (a ++ b) = a.
Proof.
  induction a as [|c a IH]; simpl; [destruct b; reflexivity | now rewrite IH].
Qed.

Lemma substring_tail a b n m :
  substring (String.length a + n) m (a ++ b) = substring n m b.
Proof. induction a as [|c a IH]; simpl; [reflexivity | exact IH]. Qed.

Lemma replace_occurrence pre str post new :
  ViPerl.replace (pre ++ str ++ post) (String.length pre) (String.length str) new
  = pre ++ new ++ post.
Proof.
  unfold ViPerl.replace. rewrite substring_head. do 2 f_equal.
  rewrite !length_append.
  replace (String.length pre + (String.length str + String.length post)
           - (String.length pre + String.length str))%nat
    with (String.length post) by lia.
  rewrite substring_tail.
  rewrite <- (Nat.add_0_r (String.length str)) at 1.
  rewrite substring_tail. apply substring_whole.
Qed.

(** X16: [munge_line] leaves a line alone when the replacement path is empty
    or when the real path does not occur in it; otherwise it replaces the
    leftmost occurrence of the real path by the replacement path and
    nothing else, later occurrences included. *)
Theorem munge_line_replaces_leftmost_occurrence
  (real_path sudo_path line : string) :
  (sudo_path = "" -> ViPerl.munge_line real_path sudo_path line = line) /\
  ((forall pre post, line <> pre ++ real_path ++ post) ->
   ViPerl.munge_line real_path sudo_path line = line) /\
  (forall pre post,
      sudo_path <> "" ->
      line = pre ++ real_path ++ post ->
      (forall pre' post',
          line = pre' ++ real_path ++ post' ->
          (String.length pre <= String.length pre')%nat) ->
      ViPerl.munge_line real_path sudo_path line = pre ++ sudo_path ++ post).
Proof.
  unfold ViPerl.munge_line. split; [|split].
  - intros ->. reflexivity.
  - intros Hno. destruct (negb (sudo_path =? "")); [|reflexivity].
    destruct (ViPerl.find line real_path) as [n|] eqn:Hf; [|reflexivity].
    destruct (find_some _ _ _ Hf) as (pre & post & E & _).
    elim (Hno pre post E).
  - intros pre post Hs E Hmin.
    apply String.eqb_neq in Hs. rewrite Hs. simpl.
    destruct (ViPerl.find line real_path) as [n|] eqn:Hf.
    + destruct (find_some _ _ _ Hf) as (pre0 & post0 & E0 & Hl & Hmin0).
      assert (Hn : n = String.length pre).
      { apply Nat.le_antisymm; [apply (Hmin0 pre post E)|].
        rewrite <- Hl. apply (Hmin pre0 post0 E0). }
      rewrite Hn, E. apply replace_occurrence.
    + elim (find_none _ _ Hf pre post E).
Qed.

Lemma munge_line_replaces_leftmost_occurrence_witness :
  ViPerl.munge_line "/tmp/x.pl" "/etc/x.pl"
    "syntax error at /tmp/x.pl line 3, near /tmp/x.pl"
  = "syntax error at " ++ "/etc/x.pl" ++ " line 3, near /tmp/x.pl".
Proof.
  apply (proj2 (proj2 (munge_line_replaces_leftmost_occurrence
                         "/tmp/x.pl" "/etc/x.pl"
                         "syntax error at /tmp/x.pl line 3, near /tmp/x.pl"))
           "syntax error at " " line 3, near /tmp/x.pl").
  - discriminate.
  - reflexivity.
  - intros pre' post' E.
    destruct (Nat.le_gt_cases 16 (String.length pre')) as [H|H]; [exact H|].
    exfalso.
    do 16 (destruct pre' as [|? pre'];
           [simpl in E; discriminate E | simpl in E; injection E as _ E]).
    simpl in H. lia.
Defined.

(** * Completeness and provenance on the semantic tree *)


Lemma TraverseASTDecl_Node SM D isImplicit children Decls :
  TraverseASTDecl SM (ASTDecl D isImplicit children) Decls =
  if isImplicit then Some (true, Decls)
  else
    '(go_on, Decls) <- WalkUpFrom SM D Decls ;;
    if go_on then TraverseASTChildren SM children Decls
    else Some (false, Decls).
Proof. reflexivity. Qed.

Lemma TraverseASTChildren_spec SM cs :
  Forall (fun N => forall Decls,
            TraverseASTDecl SM N Decls =
            Some (true,
                  (Decls ++ map (recordOf SM)
                              (filter (recorded SM) (explicitDecls N)))%list))
    cs ->
  forall Decls,
    TraverseASTChildren SM cs Decls =
    Some (true,
          (Decls ++ map (recordOf SM)
                      (filter (recorded SM) (flat_map explicitDecls cs)))%list).
Proof.
  induction 1 as [|c cs Hc _ IH]; intros Decls; simpl.
  - now rewrite app_nil_r.
  - rewrite Hc. simpl. rewrite IH, filter_app, map_app, app_assoc.
    reflexivity.
Qed.

(** The traversal of the semantic tree never stops early, never hits the
    failing cast, and appends the records of the eligible hooked nodes among
    the declarations that are not implicit and below no implicit one. *)
Lemma TraverseASTDecl_spec SM N :
  forall Decls,
    TraverseASTDecl SM N Decls =
    Some (true,
          (Decls ++ map (recordOf SM)
                      (filter (recorded SM) (explicitDecls N)))%list).
Proof.
  induction N as [D isImplicit children IH] using ASTNode_forall_ind.
  intros Decls. rewrite TraverseASTDecl_Node. cbn [explicitDecls].
  destruct isImplicit.
  - simpl. now rewrite app_nil_r.
  - rewrite WalkUpFrom_spec. simpl.
    rewrite (TraverseASTChildren_spec SM children IH).
    destruct (recorded SM D); simpl; rewrite <- ?app_assoc; reflexivity.
Qed.


Lemma preorder_walkedTrees N :
  flat_map preorder (walkedTrees N) = explicitDecls N.
Proof.
  induction N as [D isImplicit children IH] using ASTNode_forall_ind.
  cbn [walkedTrees explicitDecls]. destruct isImplicit; [reflexivity|].
  simpl. rewrite app_nil_r. f_equal.
  induction IH as [|c cs Hc _ IHcs]; simpl; [reflexivity|].
  now rewrite flat_map_app, Hc, IHcs.
Qed.

(** The traversal of the semantic tree is the walk over the trees that are
    left once the implicit declarations are taken out. *)
Lemma TraverseASTDecl_walkedTrees SM N Decls :
  TraverseASTDecl SM N Decls = TraverseChildren SM (walkedTrees N) Decls.
Proof.
  rewrite TraverseASTDecl_spec.
  rewrite (TraverseChildren_spec SM (walkedTrees N))
    by (apply Forall_forall; intros M _; apply TraverseDecl_spec).
  unfold recordsOf. now rewrite preorder_walkedTrees.
Qed.






(** C2, as stated, fails: for the name [gx], spelled in the macro body of the
    included file and expanded in the main file, the walk collects a record,
    and the line and column it stores (1:20) are a position of the included
    file, not of the main file. *)
Lemma record_positioned_in_included_file :
  collect (tableManager listTable) listTree
  = Some [ {| kind := "Var"; declaration := "int gx;"; is_definition := false;
              line := 1; column := 20 |} ]
  /\ getSpellingLoc (getSLocEntry listTable 1) = at_file 2 1 20
  /\ getMainFileID listTable = 1%nat
  /\ ~ positionedInMainFile listTable listTree.
Proof.
  repeat split.
  intros H. specialize (H (varDecl 1 "int" "gx")).
  assert (HIn : In (varDecl 1 "int" "gx")
                  (filter (recorded (tableManager listTable))
                     (preorder listTree)))
    by (vm_compute; left; reflexivity).
  specialize (H HIn). vm_compute in H. discriminate H.
Qed.

(** C2, amended: the walk returns, and every record it collects was built
    from a node of the tree whose location is valid and has its expansion
    point in the main file; a node whose location is invalid or expands in
    any other file leaves the vector untouched, and a tree made of such nodes
    only yields no record.  The line and column a record stores are those of
    the spelling point of the node's location, which is a position of the
    main file whenever the location is outside macro expansions. *)
Theorem records_expand_in_main_file (T : SLocTable) (N : DeclNode) :
  (forall D Decls,
      SourceLocation.isValid (getLocation D) = false \/
      FilePosition.file
        (getExpansionLoc (getSLocEntry T (SourceLocation.ID (getLocation D))))
      <> getMainFileID T ->
      addDeclaration (tableManager T) D Decls = Some Decls) /\
  exists Ds,
    collect (tableManager T) N = Some (map (recordOf (tableManager T)) Ds) /\
    (forall D, In D Ds ->
       In D (preorder N) /\
       SourceLocation.isValid (getLocation D) = true /\
       FilePosition.file
         (getExpansionLoc (getSLocEntry T (SourceLocation.ID (getLocation D))))
       = getMainFileID T /\
       line (recordOf (tableManager T) D)
       = FilePosition.line
           (getSpellingLoc (getSLocEntry T (SourceLocation.ID (getLocation D)))) /\
       column (recordOf (tableManager T) D)
       = FilePosition.column
           (getSpellingLoc (getSLocEntry T (SourceLocation.ID (getLocation D)))) /\
       forall position,
         getSLocEntry T (SourceLocation.ID (getLocation D)) = InFile position ->
         FilePosition.file position = getMainFileID T /\
         spelledInMainFile T (getLocation D) = true) /\
    ((forall D, In D (preorder N) ->
        SourceLocation.isValid (getLocation D) = false \/
        FilePosition.file
          (getExpansionLoc (getSLocEntry T (SourceLocation.ID (getLocation D))))
        <> getMainFileID T) ->
     Ds = []).
Proof.
  assert (Hguard : forall D,
             SourceLocation.isValid (getLocation D) = false \/
             FilePosition.file
               (getExpansionLoc
                  (getSLocEntry T (SourceLocation.ID (getLocation D))))
             <> getMainFileID T ->
             SourceLocation.isValid (getLocation D) = false \/
             SourceManager.isInMainFile (tableManager T) (getLocation D)
             = false).
  { intros D [H|H]; [left; exact H|]. right. simpl.
    unfold expandedInMainFile. apply Nat.eqb_neq in H. rewrite H.
    apply andb_false_r. }
  destruct (records_lie_in_main_file (tableManager T) N)
    as [Hskip (Ds & Hcollect & Hfrom & Hnone)].
  split.
  - intros D Decls H. apply Hskip, Hguard, H.
  - exists Ds. split; [exact Hcollect|]. split.
    + intros D HD. destruct (Hfrom D HD) as (HIn & Hvalid & Hmain).
      simpl in Hmain. unfold expandedInMainFile in Hmain.
      rewrite Hvalid in Hmain. simpl in Hmain. apply Nat.eqb_eq in Hmain.
      split; [exact HIn|]. split; [exact Hvalid|]. split; [exact Hmain|].
      simpl. rewrite Hvalid. split; [reflexivity|]. split; [reflexivity|].
      intros position Hp. rewrite Hp in Hmain. simpl in Hmain.
      split; [exact Hmain|]. unfold spelledInMainFile.
      rewrite Hvalid, Hp. simpl. now apply Nat.eqb_eq.
    + intros Hall. apply Hnone. intros D HD. apply Hguard, Hall, HD.
Qed.

Lemma records_expand_in_main_file_witness :
  addDeclaration (tableManager includeTable) (fDecl 1040 false) [] = Some [] /\
  collect (tableManager includeTable) includeTree
  = Some [ {| kind := "Var"; declaration := "int x;"; is_definition := false;
              line := 2; column := 5 |} ].
Proof.
  destruct (records_expand_in_main_file includeTable includeTree)
    as [Hskip _].
  split.
  - apply Hskip. right. vm_compute. discriminate.
  - reflexivity.
Defined.
